(** * realworld-go: the handlers of [main.go], embedded and checked

    A shallow embedding of the HTTP handlers of [main.go] (login, token
    issuance, the authorization helper [authApi], profile rendering,
    unfollow, article listing) together with small executable models of
    the parts of the pinned third-party libraries the handlers lean on
    (gin v1.7.2 response writer, jwt-go v3.2.0 parser, gorm v1.21.10 raw
    statements, the Go runtime's panics). *)

From Stdlib Require Import ZArith NArith String Ascii List Lia Bool DecimalString.
From stdpp Require Import base option gmap strings list.

#[local] Open Scope string_scope.
#[local] Open Scope list_scope.

(** ** Go runtime: panics and results *)

Module Go.

(** What a goroutine can panic with in the code under study. *)
Inductive panic : Type :=
| IndexOutOfRange (index len : nat)  (* runtime error: index out of range [i] with length n *)
| NilDereference                     (* runtime error: invalid memory address or nil pointer dereference *)
| PanicValue (v : string).           (* panic("...") *)

Inductive outcome (A : Type) : Type :=
| Returned (a : A)
| Panicked (p : panic).
Arguments Returned {A} a.
Arguments Panicked {A} p.

(** [strings.Split(s, sep)] for a one-byte separator, the only way the
    program and the token parser call it ([" "] and ["."]). *)
Fixpoint Split (s : string) (sep : ascii) : list string :=
  match s with
  | EmptyString => [EmptyString]
  | String a rest =>
      if Ascii.eqb a sep then EmptyString :: Split rest sep
      else match Split rest sep with
           | [] => [String a EmptyString]
           | p :: ps => String a p :: ps
           end
  end.

(** [strings.Join(parts, sep)]. *)
Fixpoint Join (parts : list string) (sep : string) : string :=
  match parts with
  | [] => ""
  | [p] => p
  | p :: ps => p +:+ sep +:+ Join ps sep
  end.

(** The byte [c] occurs in [s]. *)
Fixpoint contains_byte (c : ascii) (s : string) : bool :=
  match s with
  | EmptyString => false
  | String a rest => Ascii.eqb a c || contains_byte c rest
  end.

(** ASCII part of [strings.ToLower]. *)
Definition lower_byte (a : ascii) : ascii :=
  let n := nat_of_ascii a in
  if (65 <=? n)%nat && (n <=? 90)%nat then ascii_of_nat (n + 32) else a.

Fixpoint ToLower (s : string) : string :=
  match s with
  | EmptyString => EmptyString
  | String a rest => String (lower_byte a) (ToLower rest)
  end.

Definition HasPrefix (s prefix : string) : bool := String.prefix prefix s.

(** [time.Time] as nanoseconds since the Unix epoch; [time.Duration] in
    nanoseconds. *)
Definition Time := Z.
Definition Duration := Z.
Definition Second : Duration := 1000000000%Z.
Definition Minute : Duration := (60 * Second)%Z.
Definition Time_Add (t : Time) (d : Duration) : Time := (t + d)%Z.
Definition Time_Unix (t : Time) : Z := (t / Second)%Z.

End Go.
Export Go.

(** ** Data model ([main.go], lines 76-154) *)

(** [uint64] identifiers; the program never does arithmetic on them. *)
Definition uint64 := N.

Record User : Type := {
  User_ID : uint64;
  User_Username : string;
  User_Email : string;
  User_Password : string;
  User_Bio : string;
  User_Image : string;
  User_EmailVerifiedAt : Time;
  User_CreatedAt : Time;
  User_UpdatedAt : Time
}.

(** The zero value of [User], what [var user User] holds before a query
    fills it in. *)
Definition User_zero : User :=
  {| User_ID := 0%N; User_Username := ""; User_Email := ""; User_Password := "";
     User_Bio := ""; User_Image := ""; User_EmailVerifiedAt := 0%Z;
     User_CreatedAt := 0%Z; User_UpdatedAt := 0%Z |}.

Record LoginUser : Type := {
  LoginUser_Email : string;
  LoginUser_Password : string
}.

Record LoginRequest : Type := { LoginRequest_Data : LoginUser }.

Record UserResource : Type := {
  UserResource_Username : string;
  UserResource_Email : string;
  UserResource_Bio : string;
  UserResource_Image : string;
  UserResource_Token : string
}.

Record Profile : Type := {
  Profile_Username : string;
  Profile_Bio : string;
  Profile_Image : string;
  Profile_Following : bool
}.

Record Tag : Type := {
  Tag_ID : uint64;
  Tag_Name : string;
  Tag_Slug : string;
  Tag_CreatedAt : Time;
  Tag_UpdatedAt : Time
}.

Record Article : Type := {
  Article_ID : uint64;
  Article_Title : string;
  Article_Body : string;
  Article_Description : string;
  Article_Slug : string;
  Article_UserID : uint64;
  Article_User : User;
  Article_Tags : list Tag;
  Article_Favoriters : list User;
  Article_CreatedAt : Time;
  Article_UpdatedAt : Time
}.

Record ArticleResource : Type := {
  ArticleResource_Title : string;
  ArticleResource_Body : string;
  ArticleResource_Description : string;
  ArticleResource_Slug : string;
  ArticleResource_User : User;
  ArticleResource_Tags : list string;
  ArticleResource_Favorited : bool;
  ArticleResource_FavoritesCount : N;
  ArticleResource_CreatedAt : string;
  ArticleResource_UpdatedAt : string
}.

(** ** jwt-go v3.2.0, as far as [CreateToken] and [authApi] use it *)

Module jwt.

(** The registered signing methods ([jwt.GetSigningMethod]). *)
Inductive SigningMethod : Type :=
| HS256 | HS384 | HS512
| RS256 | RS384 | RS512
| PS256 | PS384 | PS512
| ES256 | ES384 | ES512
| none.

#[global] Instance SigningMethod_eq_dec : EqDecision SigningMethod.
Proof. solve_decision. Defined.

Definition Alg (m : SigningMethod) : string :=
  match m with
  | HS256 => "HS256" | HS384 => "HS384" | HS512 => "HS512"
  | RS256 => "RS256" | RS384 => "RS384" | RS512 => "RS512"
  | PS256 => "PS256" | PS384 => "PS384" | PS512 => "PS512"
  | ES256 => "ES256" | ES384 => "ES384" | ES512 => "ES512"
  | none => "none"
  end.

Definition all_methods : list SigningMethod :=
  [HS256; HS384; HS512; RS256; RS384; RS512; PS256; PS384; PS512;
   ES256; ES384; ES512; none].

Definition GetSigningMethod (alg : string) : option SigningMethod :=
  List.find (fun m => String.eqb (Alg m) alg) all_methods.

(** A value stored in [jwt.MapClaims] ([map[string]interface{}]). *)
Inductive claim_value : Type :=
| CBool (b : bool)
| CUint64 (n : uint64)
| CInt64 (z : Z).

(** [jwt.StandardClaims]. *)
Record StandardClaims : Type := {
  Audience : string;
  ExpiresAt : Z;
  Id : string;
  IssuedAt : Z;
  Issuer : string;
  NotBefore : Z;
  Subject : string
}.

(** [MyCustomClaims], declared inside [authApi] (lines 356-359). *)
Record MyCustomClaims : Type := {
  UserId : uint64;
  Standard : StandardClaims
}.

Definition MyCustomClaims_zero : MyCustomClaims :=
  {| UserId := 0%N;
     Standard := {| Audience := ""; ExpiresAt := 0; Id := ""; IssuedAt := 0;
                    Issuer := ""; NotBefore := 0; Subject := "" |} |}.

(** [jwt.Token]; [Method] is [None] while the header has not been read. *)
Record Token : Type := {
  Raw : string;
  Method : option SigningMethod;
  Header : gmap string string;
  Claims : MyCustomClaims;
  Signature : string;
  Valid : bool
}.

Definition new_Token (raw : string) : Token :=
  {| Raw := raw; Method := None; Header := ∅; Claims := MyCustomClaims_zero;
     Signature := ""; Valid := false |}.

Definition set_Header (header : gmap string string) (t : Token) : Token :=
  {| Raw := Raw t; Method := Method t; Header := header; Claims := Claims t;
     Signature := Signature t; Valid := Valid t |}.

Definition set_Claims (claims : MyCustomClaims) (t : Token) : Token :=
  {| Raw := Raw t; Method := Method t; Header := Header t; Claims := claims;
     Signature := Signature t; Valid := Valid t |}.

Definition set_Method (m : SigningMethod) (t : Token) : Token :=
  {| Raw := Raw t; Method := Some m; Header := Header t; Claims := Claims t;
     Signature := Signature t; Valid := Valid t |}.

Definition set_Signature (sig : string) (t : Token) : Token :=
  {| Raw := Raw t; Method := Method t; Header := Header t; Claims := Claims t;
     Signature := sig; Valid := Valid t |}.

Definition set_Valid (v : bool) (t : Token) : Token :=
  {| Raw := Raw t; Method := Method t; Header := Header t; Claims := Claims t;
     Signature := Signature t; Valid := v |}.

(** [jwt.ValidationError]: [Inner] holds the wrapped error's text. *)
Record ValidationError : Type := {
  Inner : option string;
  Errors : N;
  text : string
}.

Definition ValidationErrorMalformed : N := 1.
Definition ValidationErrorUnverifiable : N := 2.
Definition ValidationErrorSignatureInvalid : N := 4.
Definition ValidationErrorExpired : N := 16.
Definition ValidationErrorIssuedAtInvalid : N := 32.
Definition ValidationErrorNotValidYet : N := 128.
Definition ValidationErrorClaimsInvalid : N := 512.

Definition NewValidationError (errorText : string) (errorFlags : N) : ValidationError :=
  {| Inner := None; Errors := errorFlags; text := errorText |}.

(** [&ValidationError{Inner: err, Errors: ValidationErrorMalformed}]. *)
Definition malformed (err : string) : ValidationError :=
  {| Inner := Some err; Errors := ValidationErrorMalformed; text := "" |}.

(** [func (e ValidationError) Error() string]. *)
Definition ValidationError_Error (e : ValidationError) : string :=
  match Inner e with
  | Some inner => inner
  | None => if String.eqb (text e) "" then "token is invalid" else text e
  end.

(** [func (e *ValidationError) valid() bool]. *)
Definition ValidationError_valid (e : ValidationError) : bool := N.eqb (Errors e) 0.

(** The parts of the library that are encodings and cryptography:
    base64url + JSON for the two payload segments, and the signature
    primitives.  They are an interface here; the handlers are verified for
    every implementation, and round-trip statements name the laws they
    need. *)
Class Codec : Type := {
  (** [EncodeSegment]: base64url without padding *)
  EncodeSegment : string -> string;
  (** [DecodeSegment]: the bytes, or the text of the decoding error *)
  DecodeSegment : string -> string + string;
  (** [json.Marshal(t.Header)]; marshalling a map of strings cannot fail *)
  Marshal_Header : gmap string string -> string;
  (** [json.Marshal(t.Claims)] for [MapClaims] of booleans and integers *)
  Marshal_Claims : gmap string claim_value -> string;
  (** [json.Unmarshal(headerBytes, &token.Header)] *)
  Unmarshal_Header : string -> gmap string string + string;
  (** the JSON decode of the payload into [&MyCustomClaims{}] *)
  Decode_Claims : string -> MyCustomClaims + string;
  (** [Method.Sign(signingString, key)]: signature segment or error text *)
  Sign : SigningMethod -> string -> string -> string + string;
  (** [Method.Verify(signingString, signature, key)]: [None] is success *)
  Verify : SigningMethod -> string -> string -> string -> option string;
  (** [fmt.Sprintf("%v", d)] for a [time.Duration] *)
  FormatDuration : Duration -> string
}.

Section Library.
Context {codec : Codec}.

(** [Token.SigningString] and [Token.SignedString] for a token made by
    [NewWithClaims(method, claims)]. *)
Definition NewWithClaims_Header (method : SigningMethod) : gmap string string :=
  <["alg" := Alg method]> (<["typ" := "JWT"]> ∅).

Definition SigningString (method : SigningMethod) (claims : gmap string claim_value) : string :=
  Join [EncodeSegment (Marshal_Header (NewWithClaims_Header method));
        EncodeSegment (Marshal_Claims claims)] ".".

Definition SignedString (method : SigningMethod) (claims : gmap string claim_value)
    (key : string) : string * option string :=
  let sstr := SigningString method claims in
  match Sign method sstr key with
  | inr err => ("", Some err)
  | inl sig => (Join [sstr; sig] ".", None)
  end.

(** [StandardClaims.Valid], with [now := TimeFunc().Unix()]. *)
Definition verifyExp (exp now : Z) (required : bool) : bool :=
  if (exp =? 0)%Z then negb required else (now <=? exp)%Z.
Definition verifyIat (iat now : Z) (required : bool) : bool :=
  if (iat =? 0)%Z then negb required else (iat <=? now)%Z.
Definition verifyNbf (nbf now : Z) (required : bool) : bool :=
  if (nbf =? 0)%Z then negb required else (nbf <=? now)%Z.

Definition StandardClaims_Valid (c : StandardClaims) (now : Z) : option ValidationError :=
  let vErr := {| Inner := None; Errors := 0; text := "" |} in
  let vErr :=
    if negb (verifyExp (ExpiresAt c) now false) then
      {| Inner := Some ("token is expired by " +:+
                        FormatDuration ((now - ExpiresAt c) * Second)%Z);
         Errors := N.lor (Errors vErr) ValidationErrorExpired; text := text vErr |}
    else vErr in
  let vErr :=
    if negb (verifyIat (IssuedAt c) now false) then
      {| Inner := Some "Token used before issued";
         Errors := N.lor (Errors vErr) ValidationErrorIssuedAtInvalid; text := text vErr |}
    else vErr in
  let vErr :=
    if negb (verifyNbf (NotBefore c) now false) then
      {| Inner := Some "token is not valid yet";
         Errors := N.lor (Errors vErr) ValidationErrorNotValidYet; text := text vErr |}
    else vErr in
  if ValidationError_valid vErr then None else Some vErr.

(** [Parser.ParseUnverified]: the token (possibly [nil]), the segments and
    the error.  The token is filled in field by field as parsing goes. *)
Definition ParseUnverified (tokenString : string)
    : option Token * list string * option ValidationError :=
  let parts := Split tokenString "." in
  match parts with
  | [p0; p1; p2] =>
      let token := new_Token tokenString in
      match DecodeSegment p0 with
      | inr err =>
          if HasPrefix (ToLower tokenString) "bearer " then
            (Some token, parts,
             Some (NewValidationError "tokenstring should not contain 'bearer '"
                                      ValidationErrorMalformed))
          else (Some token, parts, Some (malformed err))
      | inl headerBytes =>
          match Unmarshal_Header headerBytes with
          | inr err => (Some token, parts, Some (malformed err))
          | inl header =>
              let token := set_Header header token in
              match DecodeSegment p1 with
              | inr err => (Some token, parts, Some (malformed err))
              | inl claimBytes =>
                  match Decode_Claims claimBytes with
                  | inr err => (Some token, parts, Some (malformed err))
                  | inl claims =>
                      let token := set_Claims claims token in
                      match header !! "alg" with
                      | Some alg =>
                          match GetSigningMethod alg with
                          | None =>
                              (Some token, parts,
                               Some (NewValidationError
                                       "signing method (alg) is unavailable."
                                       ValidationErrorUnverifiable))
                          | Some m => (Some (set_Method m token), parts, None)
                          end
                      | None =>
                          (Some token, parts,
                           Some (NewValidationError
                                   "signing method (alg) is unspecified."
                                   ValidationErrorUnverifiable))
                      end
                  end
              end
          end
      end
  | _ =>
      (None, parts,
       Some (NewValidationError "token contains an invalid number of segments"
                                ValidationErrorMalformed))
  end.

(** [token.Method.Verify(...)]; a token past [ParseUnverified] has its
    method set. *)
Definition Method_Verify (token : Token) (signingString signature key : string)
    : option string :=
  match Method token with
  | Some m => Verify m signingString signature key
  | None => None
  end.

(** [Parser.ParseWithClaims] of the default parser.  [keyFunc] answers
    the key or the text of its error; [now] is [TimeFunc().Unix()]. *)
Definition ParseWithClaims (tokenString : string)
    (keyFunc : Token -> string + string) (now : Z)
    : option Token * option ValidationError :=
  match ParseUnverified tokenString with
  | (token, _, Some err) => (token, Some err)
  | (None, _, None) => (None, None)
  | (Some token, parts, None) =>
      match keyFunc token with
      | inr err =>
          (Some token, Some {| Inner := Some err; Errors := ValidationErrorUnverifiable;
                               text := "" |})
      | inl key =>
          let vErr := {| Inner := None; Errors := 0; text := "" |} in
          let vErr :=
            match StandardClaims_Valid (Standard (Claims token)) now with
            | Some e => e
            | None => vErr
            end in
          let token := set_Signature (nth 2 parts "") token in
          let vErr :=
            match Method_Verify token (Join (firstn 2 parts) ".") (Signature token) key with
            | Some err =>
                {| Inner := Some err;
                   Errors := N.lor (Errors vErr) ValidationErrorSignatureInvalid;
                   text := text vErr |}
            | None => vErr
            end in
          if ValidationError_valid vErr then (Some (set_Valid true token), None)
          else (Some token, Some vErr)
      end
  end.

End Library.
End jwt.

(** ** The persistence store behind [getDB()] *)

Record DB : Type := {
  users : list User;
  articles : list Article;       (* rows; [Article_User], [Article_Tags] are filled by Preload *)
  tags : list Tag;
  article_tag : list (uint64 * uint64);   (* (article_id, tag_id) *)
  followers : list (uint64 * uint64);     (* (user_id, follower_id) *)
  favoriters : list (uint64 * uint64)     (* (article_id, user_id) *)
}.

Definition set_followers (rows : list (uint64 * uint64)) (d : DB) : DB :=
  {| users := users d; articles := articles d; tags := tags d;
     article_tag := article_tag d; followers := rows; favoriters := favoriters d |}.

(** ** gin v1.7.2: the request context and its response writer *)

Module gin.

(** What the handlers put into a [gin.H]. *)
Inductive value : Type :=
| VNil
| VInt (z : Z)
| VString (s : string)
| VUserResource (u : UserResource)
| VProfile (p : Profile)
| VArticle (a : Article)
| VArticleResources (l : list ArticleResource)
| VTags (l : list Tag)
| VToken (t : option jwt.Token).

(** [gin.H] is [map[string]interface{}]. *)
Abbreviation H := (gmap string value).

Record Context : Type := {
  Request_Header : gmap string string;   (* c.Request.Header *)
  Params : gmap string string;           (* path parameters *)
  Request_Body : option LoginRequest;    (* the body as [BindJSON] decodes it, if it does *)
  Keys : gmap string value;              (* request-scoped values, [c.Set] / [c.Get] *)
  Writer_status : Z;                     (* responseWriter.status *)
  Writer_sent : option Z;                (* status line already sent to the client *)
  Writer_body : list H;                  (* JSON documents written to the client, in order *)
  aborted : bool                         (* c.IsAborted() *)
}.

(** A fresh context for a request: nothing written, status 200 pending. *)
Definition new_Context (header params : gmap string string)
    (body : option LoginRequest) : Context :=
  {| Request_Header := header; Params := params; Request_Body := body; Keys := ∅;
     Writer_status := 200; Writer_sent := None; Writer_body := []; aborted := false |}.

(** [c.Status(code)]: [responseWriter.WriteHeader] only records the code
    (and warns if the headers are already out). *)
Definition Status (code : Z) (c : Context) : Context :=
  {| Request_Header := Request_Header c; Params := Params c;
     Request_Body := Request_Body c; Keys := Keys c;
     Writer_status := if (0 <? code)%Z then code else Writer_status c;
     Writer_sent := Writer_sent c; Writer_body := Writer_body c; aborted := aborted c |}.

(** [responseWriter.WriteHeaderNow]: the first call sends the status
    line; later ones change nothing on the wire. *)
Definition WriteHeaderNow (c : Context) : Context :=
  {| Request_Header := Request_Header c; Params := Params c;
     Request_Body := Request_Body c; Keys := Keys c;
     Writer_status := Writer_status c;
     Writer_sent := match Writer_sent c with
                    | Some s => Some s
                    | None => Some (Writer_status c)
                    end;
     Writer_body := Writer_body c; aborted := aborted c |}.

Definition Write (obj : H) (c : Context) : Context :=
  let c := WriteHeaderNow c in
  {| Request_Header := Request_Header c; Params := Params c;
     Request_Body := Request_Body c; Keys := Keys c;
     Writer_status := Writer_status c; Writer_sent := Writer_sent c;
     Writer_body := Writer_body c ++ [obj]; aborted := aborted c |}.

(** [c.JSON(code, obj)] = [c.Render]: set the status, then write. *)
Definition Context_JSON (code : Z) (obj : H) (c : Context) : Context :=
  Write obj (Status code c).

(** [c.Abort()]. *)
Definition Context_Abort (c : Context) : Context :=
  {| Request_Header := Request_Header c; Params := Params c;
     Request_Body := Request_Body c; Keys := Keys c;
     Writer_status := Writer_status c; Writer_sent := Writer_sent c;
     Writer_body := Writer_body c; aborted := true |}.

(** [c.AbortWithStatus(code)], what a failed [BindJSON] does with 400. *)
Definition Context_AbortWithStatus (code : Z) (c : Context) : Context :=
  Context_Abort (WriteHeaderNow (Status code c)).

End gin.
Export gin.

(** ** Handlers as state transformers that may panic *)

Record World : Type := { ctx : Context; db : DB }.

Definition Handler (A : Type) : Type := World -> outcome A * World.

#[global] Instance Handler_ret : MRet Handler :=
  fun A a w => (Returned a, w).

#[global] Instance Handler_bind : MBind Handler :=
  fun A B f m w =>
    match m w with
    | (Returned a, w') => f a w'
    | (Panicked p, w') => (Panicked p, w')
    end.

Definition panic_with {A : Type} (p : panic) : Handler A :=
  fun w => (Panicked p, w).

Definition on_ctx (f : Context -> Context) : Handler unit :=
  fun w => (Returned tt, {| ctx := f (ctx w); db := db w |}).

Definition read_ctx {A : Type} (f : Context -> A) : Handler A :=
  fun w => (Returned (f (ctx w)), w).

Definition read_db {A : Type} (f : DB -> A) : Handler A :=
  fun w => (Returned (f (db w)), w).

(** [l[i]] on a slice: a run-time panic when out of range. *)
Definition index {A : Type} (l : list A) (i : nat) : Handler A :=
  match l !! i with
  | Some x => mret x
  | None => panic_with (IndexOutOfRange i (length l))
  end.

Definition c_JSON (code : Z) (obj : H) : Handler unit := on_ctx (Context_JSON code obj).
Definition c_Abort : Handler unit := on_ctx Context_Abort.
Definition c_Param (key : string) : Handler string :=
  read_ctx (fun c => default "" (Params c !! key)).
Definition c_Request_Header_Get (key : string) : Handler string :=
  read_ctx (fun c => default "" (Request_Header c !! key)).

(** [c.BindJSON(&loginRequest)]: the decoded body and a nil error, or an
    error after aborting the context with status 400. *)
Definition c_BindJSON : Handler (option LoginRequest) :=
  fun w =>
    match Request_Body (ctx w) with
    | Some r => (Returned (Some r), w)
    | None => (Returned None,
               {| ctx := Context_AbortWithStatus 400 (ctx w); db := db w |})
    end.

(** ** gorm v1.21.10, as far as the handlers use it *)

Module gorm.

(** [db.Raw(sql, values...)] only builds a statement; nothing reaches the
    database until a finisher ([Scan], [Row], [Rows]) runs it. *)
Record Statement : Type := { SQL : string; Vars : list uint64 }.

Definition Raw (sql : string) (values : list uint64) : Statement :=
  {| SQL := sql; Vars := values |}.

Fixpoint placeholders (sql : string) : nat :=
  match sql with
  | EmptyString => 0
  | String a rest => (if Ascii.eqb a "?" then 1 else 0) + placeholders rest
  end.

Definition pair_eqb (r : uint64 * uint64) (a b : uint64) : bool :=
  N.eqb (fst r) a && N.eqb (snd r) b.

(** The rows of [followers] with the given [user_id] and [follower_id]. *)
Definition count_followers (d : DB) (user_id follower_id : uint64) : N :=
  N.of_nat (length (List.filter (fun r => pair_eqb r user_id follower_id) (followers d))).

Definition delete_followers (d : DB) (user_id follower_id : uint64) : DB :=
  set_followers
    (List.filter (fun r => negb (pair_eqb r user_id follower_id)) (followers d)) d.

(** [stmt.Scan(&result)] for a [result] with the single field [Count].
    The statement runs only if it binds as many values as it has
    placeholders; otherwise the driver refuses it, the error stays on the
    returned handle (which the handlers drop) and [result] keeps its
    value.  Of all SQL, the two statements of [unfollowProfile] are
    understood. *)
Definition Scan (st : Statement) (result : N) : Handler N :=
  fun w =>
    if negb (Nat.eqb (placeholders (SQL st)) (length (Vars st))) then (Returned result, w)
    else if String.eqb (SQL st)
              "SELECT COUNT(*) FROM followers WHERE user_id=? AND follower_id=?" then
      match Vars st with
      | [u; f] => (Returned (count_followers (db w) u f), w)
      | _ => (Returned result, w)
      end
    else if String.eqb (SQL st)
              "DELETE FROM followers WHERE user_id=? AND follower_id=?" then
      match Vars st with
      | [u; f] => (Returned result, {| ctx := ctx w; db := delete_followers (db w) u f |})
      | _ => (Returned result, w)
      end
    else (Returned result, w).

(** [db.Where(cond).First(&user)] / [db.First(&user, cond)]: the matching
    row with the least primary key; [user] keeps its zero value when no
    row matches (the [ErrRecordNotFound] is dropped by the handlers). *)
Definition least_ID (best : option User) (u : User) : option User :=
  match best with
  | None => Some u
  | Some b => if (User_ID u <? User_ID b)%N then Some u else Some b
  end.

Definition First_User (cond : User -> bool) : Handler User :=
  read_db (fun d =>
    default User_zero (fold_left least_ID (List.filter cond (users d)) None)).

(** [db.Preload("User").Preload("Tags").Find(&articles)]. *)
Definition preload (d : DB) (a : Article) : Article :=
  {| Article_ID := Article_ID a; Article_Title := Article_Title a;
     Article_Body := Article_Body a; Article_Description := Article_Description a;
     Article_Slug := Article_Slug a; Article_UserID := Article_UserID a;
     Article_User :=
       default User_zero
         (List.find (fun u => N.eqb (User_ID u) (Article_UserID a)) (users d));
     Article_Tags :=
       List.filter
         (fun t => existsb (fun r => pair_eqb r (Article_ID a) (Tag_ID t)) (article_tag d))
         (tags d);
     Article_Favoriters := [];
     Article_CreatedAt := Article_CreatedAt a; Article_UpdatedAt := Article_UpdatedAt a |}.

Definition Find_Articles : Handler (list Article) :=
  read_db (fun d => List.map (preload d) (articles d)).

End gorm.

(** ** The environment of the process *)

Record Env : Type := {
  Getenv : string -> string;   (* os.Getenv *)
  Now : Time                   (* time.Now() *)
}.

(** [bcrypt.CompareHashAndPassword(hash, password)]: [None] is a match,
    [Some] the text of the error. *)
Class Bcrypt : Type := {
  CompareHashAndPassword : string -> string -> option string
}.

(** ** The handlers of [main.go] *)

Section Handlers.
Context {codec : jwt.Codec} {bcrypt : Bcrypt}.
Variable env : Env.
(** [t.Format(time.RFC3339)] *)
Variable Format_RFC3339 : Time -> string.

(** [CreateToken] (lines 276-289): token string and error text. *)
Definition CreateToken (userid : uint64) : string * option string :=
  let atClaims : gmap string jwt.claim_value := ∅ in
  let atClaims := <["authorized" := jwt.CBool true]> atClaims in
  let atClaims := <["user_id" := jwt.CUint64 userid]> atClaims in
  let atClaims :=
    <["exp" := jwt.CInt64 (Time_Unix (Time_Add (Now env) (Minute * 15)%Z))]> atClaims in
  match jwt.SignedString jwt.HS256 atClaims (Getenv env "JWT_SECRET") with
  | (_, Some err) => ("", Some err)
  | (token, None) => (token, None)
  end.

(** The key function handed to [jwt.ParseWithClaims] (lines 362-368). *)
Definition keyFunc (token : jwt.Token) : string + string :=
  if decide (jwt.GetSigningMethod "HS256" ≠ jwt.Method token) then
    inr ("Unexpected signing method: " +:+ default "<nil>" (jwt.Header token !! "alg"))
  else inl (Getenv env "JWT_SECRET").

(** [err.Error()] on an [error] interface value: a nil interface has no
    method to call. *)
Definition err_Error (err : option jwt.ValidationError) : Handler string :=
  match err with
  | Some e => mret (jwt.ValidationError_Error e)
  | None => panic_with NilDereference
  end.

(** [authApi] (lines 354-378). *)
Definition authApi : Handler (option jwt.Token) :=
  tokenString ← c_Request_Header_Get "Authorization";
  let bearerToken := Split tokenString " " in
  bearer1 ← index bearerToken 1;
  let '(token, err) := jwt.ParseWithClaims bearer1 keyFunc (Time_Unix (Now env)) in
  (if match token with
      | None => true
      | Some t => bool_decide (err = None) || negb (jwt.Valid t)
      end
   then
     text ← err_Error err;
     c_JSON 401 (<["message" := VString "not authorized"]>
                   (<["error" := VString text]> ∅))
   else mret tt);;
  mret token.

(** [loginUser] (lines 245-274). *)
Definition loginUser : Handler unit :=
  bound ← c_BindJSON;
  match bound with
  | None => panic_with (PanicValue "Wrong data")
  | Some loginRequest =>
      user ← gorm.First_User
               (fun u => String.eqb (User_Email u)
                           (LoginUser_Email (LoginRequest_Data loginRequest)));
      (match CompareHashAndPassword (User_Password user)
               (LoginUser_Password (LoginRequest_Data loginRequest)) with
       | Some _ =>
           c_JSON 401 (<["status" := VInt 401]>
                         (<["message" := VString "wrong username or password"]> ∅))
       | None => mret tt
       end);;
      match CreateToken (User_ID user) with
      | (_, Some _) => panic_with (PanicValue "Server error")
      | (token, None) =>
          c_JSON 200
            (<["user" := VUserResource
                 {| UserResource_Username := User_Username user;
                    UserResource_Email := User_Email user;
                    UserResource_Bio := User_Bio user;
                    UserResource_Image := User_Image user;
                    UserResource_Token := token |}]> ∅)
      end
  end.

(** [showProfile] (lines 309-318). *)
Definition showProfile : Handler unit :=
  username ← c_Param "username";
  user ← gorm.First_User (fun u => String.eqb (User_Username u) username);
  let profile := {| Profile_Username := User_Username user; Profile_Bio := User_Bio user;
                    Profile_Image := User_Image user; Profile_Following := false |} in
  c_JSON 200 (<["profile" := VProfile profile]> ∅).

(** [unfollowProfile] (lines 326-344). *)
Definition unfollowProfile : Handler unit :=
  token ← authApi;
  c_JSON 200 (<["token" := VToken token]> ∅);;
  username ← c_Param "username";
  user ← gorm.First_User (fun u => String.eqb (User_Username u) username);
  result_Count ←
    gorm.Scan
      (gorm.Raw "SELECT COUNT(*) FROM followers WHERE user_id=? AND follower_id=?"
                [User_ID user]) 0%N;
  (if (result_Count =? 0)%N then
     c_JSON 402 (<["error" := VString "Unathorized"]> ∅);;
     c_Abort
   else mret tt);;
  let _ := gorm.Raw "DELETE FROM followers WHERE user_id=? AND follower_id=?"
                    [User_ID user] in
  mret tt.

(** [getArticles] (lines 156-185): the two [range] loops as folds that
    append. *)
Definition tag_names (ts : list Tag) : list string :=
  fold_left (fun tags tag => tags ++ [Tag_Name tag]) ts [].

Definition to_resource (article : Article) : ArticleResource :=
  {| ArticleResource_Title := Article_Title article;
     ArticleResource_Body := Article_Body article;
     ArticleResource_Description := Article_Description article;
     ArticleResource_Slug := "";
     ArticleResource_User := Article_User article;
     ArticleResource_Tags := tag_names (Article_Tags article);
     ArticleResource_Favorited := false;
     ArticleResource_FavoritesCount := 0;
     ArticleResource_CreatedAt := Format_RFC3339 (Article_CreatedAt article);
     ArticleResource_UpdatedAt := Format_RFC3339 (Article_UpdatedAt article) |}.

Definition getArticles : Handler unit :=
  articles ← gorm.Find_Articles;
  let articleCollection :=
    fold_left (fun coll article => coll ++ [to_resource article]) articles [] in
  c_JSON 200 (<["articles" := VArticleResources articleCollection]>
                (<["articlesCount" := VInt (Z.of_nat (length articles))]> ∅)).

(** The stub handlers (e.g. [followProfile], lines 320-324). *)
Definition pong (key : string) : Handler unit :=
  c_JSON 200 (<[key := VString "pong"]> ∅).

Definition followProfile : Handler unit := pong "message".
Definition favoriteArticle : Handler unit := pong "message".
Definition unfavoriteArticle : Handler unit := pong "message".

End Handlers.

(** ** A small implementation of the interfaces, to run the handlers *)

Module Sample.

(** A keyed checksum standing in for the HMAC. *)
Fixpoint checksum (acc : N) (s : string) : N :=
  match s with
  | EmptyString => acc
  | String a rest => checksum ((acc * 31 + N_of_ascii a) mod 65521)%N rest
  end.

Definition dec_N (n : N) : string := NilEmpty.string_of_uint (N.to_uint n).
Definition dec_Z (z : Z) : string := NilEmpty.string_of_int (Z.to_int z).
Definition undec_N (s : string) : option N :=
  match NilEmpty.uint_of_string s with
  | Some u => Some (N.of_uint u)
  | None => None
  end.
Definition undec_Z (s : string) : option Z :=
  match NilEmpty.int_of_string s with
  | Some i => Some (Z.of_int i)
  | None => None
  end.

Definition mac (signingString key : string) : string :=
  "m" +:+ dec_N (checksum 7 (key +:+ ":" +:+ signingString)).

Definition is_HMAC (m : jwt.SigningMethod) : bool :=
  match m with
  | jwt.HS256 | jwt.HS384 | jwt.HS512 => true
  | _ => false
  end.

(** Segments are written in hexadecimal, two digits a byte. *)
Definition hex_digit (n : N) : ascii :=
  match n with
  | 0 => "0" | 1 => "1" | 2 => "2" | 3 => "3" | 4 => "4" | 5 => "5" | 6 => "6"
  | 7 => "7" | 8 => "8" | 9 => "9" | 10 => "a" | 11 => "b" | 12 => "c"
  | 13 => "d" | 14 => "e" | _ => "f"
  end%N%char.

Definition unhex_digit (a : ascii) : option N :=
  let n := N_of_ascii a in
  if (48 <=? n)%N && (n <=? 57)%N then Some (n - 48)%N
  else if (97 <=? n)%N && (n <=? 102)%N then Some (n - 87)%N
  else None.

Fixpoint hex (s : string) : string :=
  match s with
  | EmptyString => EmptyString
  | String a rest =>
      String (hex_digit (N_of_ascii a / 16)) (String (hex_digit (N_of_ascii a mod 16))
             (hex rest))
  end.

Fixpoint unhex (s : string) : option string :=
  match s with
  | EmptyString => Some EmptyString
  | String a (String b rest) =>
      match unhex_digit a, unhex_digit b, unhex rest with
      | Some x, Some y, Some bytes => Some (String (ascii_of_N (16 * x + y)) bytes)
      | _, _, _ => None
      end
  | String _ EmptyString => None
  end.

#[global] Instance codec : jwt.Codec := {|
  jwt.EncodeSegment := hex;
  jwt.DecodeSegment s :=
    match unhex s with
    | Some bytes => inl bytes
    | None => inr "illegal base64 data at input byte 0"
    end;
  jwt.Marshal_Header h := "alg:" +:+ default "" (h !! "alg");
  jwt.Marshal_Claims c :=
    match c !! "user_id", c !! "exp" with
    | Some (jwt.CUint64 n), Some (jwt.CInt64 e) => "u" +:+ dec_N n +:+ "e" +:+ dec_Z e
    | _, _ => "u0e0"
    end;
  jwt.Unmarshal_Header s :=
    match s with
    | String "a" (String "l" (String "g" (String ":" alg))) =>
        inl (<["alg" := alg]> (<["typ" := "JWT"]> ∅))
    | _ => inr "invalid character looking for beginning of value"
    end;
  jwt.Decode_Claims s :=
    match s with
    | String "u" rest =>
        match Split rest "e" with
        | [n; e] =>
            match undec_N n, undec_Z e with
            | Some n, Some e =>
                inl {| jwt.UserId := n;
                       jwt.Standard :=
                         {| jwt.Audience := ""; jwt.ExpiresAt := e; jwt.Id := "";
                            jwt.IssuedAt := 0; jwt.Issuer := ""; jwt.NotBefore := 0;
                            jwt.Subject := "" |} |}
            | _, _ => inr "invalid character in numeric literal"
            end
        | _ => inr "unexpected end of JSON input"
        end
    | _ => inr "invalid character looking for beginning of value"
    end;
  jwt.Sign m s key := if is_HMAC m then inl (mac s key) else inr "key is of invalid type";
  jwt.Verify m s sig key :=
    if is_HMAC m then
      if String.eqb sig (mac s key) then None else Some "signature is invalid"
    else Some "key is of invalid type";
  jwt.FormatDuration d := dec_Z (d / Second) +:+ "s"
|}.

(** Stored "hashes" are the password behind a fixed prefix. *)
#[global] Instance bcrypt : Bcrypt := {|
  CompareHashAndPassword hash password :=
    if String.eqb hash ("$2a$" +:+ password) then None
    else if (String.length hash <? 59)%nat then
      Some "crypto/bcrypt: hashedSecret too short to be a bcrypted password"
    else Some "crypto/bcrypt: hashedPassword is not the hash of the given password"
|}.

Definition env_with (secret : string) : Env :=
  {| Getenv name := if String.eqb name "JWT_SECRET" then secret else "";
     Now := 1700000000000000000%Z |}.

Definition env : Env := env_with "s3cret".

Definition Format_RFC3339 (t : Time) : string := dec_Z (t / Second) +:+ "Z".

Definition user (id : uint64) (name email password : string) : User :=
  {| User_ID := id; User_Username := name; User_Email := email;
     User_Password := "$2a$" +:+ password; User_Bio := ""; User_Image := "";
     User_EmailVerifiedAt := 0%Z; User_CreatedAt := 0%Z; User_UpdatedAt := 0%Z |}.

Definition alice : User := user 1%N "alice" "alice@example.com" "wonderland".
Definition bob : User := user 2%N "bob" "bob@example.com" "builder".

(** Two users; alice (1) follows bob (2). *)
Definition store : DB :=
  {| users := [alice; bob]; articles := []; tags := []; article_tag := [];
     followers := [(2%N, 1%N)]; favoriters := [] |}.

Definition request (auth : option string) (username : string)
    (body : option LoginRequest) : Context :=
  new_Context
    (match auth with
     | Some a => <["Authorization" := a]> ∅
     | None => ∅
     end)
    (<["username" := username]> ∅) body.

Definition login (email password : string) : Context :=
  request None ""
    (Some {| LoginRequest_Data :=
               {| LoginUser_Email := email; LoginUser_Password := password |} |}).

End Sample.

(** ** The remaining read handlers of [main.go] *)

(** The zero [time.Time] is January 1 of year 1, not the Unix epoch. *)
Definition Time_zero : Time := (-62135596800 * Second)%Z.

(** The zero value of [Article]. *)
Definition Article_zero : Article :=
  {| Article_ID := 0%N; Article_Title := ""; Article_Body := "";
     Article_Description := ""; Article_Slug := ""; Article_UserID := 0%N;
     Article_User := User_zero; Article_Tags := []; Article_Favoriters := [];
     Article_CreatedAt := Time_zero; Article_UpdatedAt := Time_zero |}.

Definition least_Article_ID (best : option Article) (a : Article) : option Article :=
  match best with
  | None => Some a
  | Some b => if (Article_ID a <? Article_ID b)%N then Some a else Some b
  end.

(** [Preload("Tags")] alone: the tags are joined in, the author is not. *)
Definition preload_Tags (d : DB) (a : Article) : Article :=
  {| Article_ID := Article_ID a; Article_Title := Article_Title a;
     Article_Body := Article_Body a; Article_Description := Article_Description a;
     Article_Slug := Article_Slug a; Article_UserID := Article_UserID a;
     Article_User := User_zero;
     Article_Tags :=
       List.filter
         (fun t => existsb (fun r => gorm.pair_eqb r (Article_ID a) (Tag_ID t))
                           (article_tag d))
         (tags d);
     Article_Favoriters := [];
     Article_CreatedAt := Article_CreatedAt a; Article_UpdatedAt := Article_UpdatedAt a |}.

(** [db.Where("slug=?", slug).Preload("Tags").First(&article)]: the row
    with the least primary key among those with the slug; [article]
    keeps its zero value when there is none. *)
Definition First_Article_by_slug (slug : string) : Handler Article :=
  read_db (fun d =>
    match fold_left least_Article_ID
            (List.filter (fun a => String.eqb (Article_Slug a) slug) (articles d)) None with
    | Some a => preload_Tags d a
    | None => Article_zero
    end).

(** [showArticle] (lines 199-207). *)
Definition showArticle : Handler unit :=
  slug ← c_Param "slug";
  article ← First_Article_by_slug slug;
  c_JSON 200 (<["article" := VArticle article]> ∅).

(** [getTags] (lines 346-352). *)
Definition getTags : Handler unit :=
  tags ← read_db tags;
  c_JSON 200 (<["tags" := VTags tags]> ∅).

(** A fresh request that carries the given raw [Authorization] value. *)
Definition request_with (authorization : string) (params : gmap string string)
    (body : option LoginRequest) (d : DB) : World :=
  {| ctx := new_Context (<["Authorization" := authorization]> ∅) params body; db := d |}.

(** A store with one tagged article, to run the article handlers. *)
Module SampleBlog.

Definition golang : Tag :=
  {| Tag_ID := 1%N; Tag_Name := "golang"; Tag_Slug := "golang";
     Tag_CreatedAt := 0%Z; Tag_UpdatedAt := 0%Z |}.

Definition hello : Article :=
  {| Article_ID := 1%N; Article_Title := "Hello"; Article_Body := "First post";
     Article_Description := "An introduction"; Article_Slug := "hello";
     Article_UserID := 1%N; Article_User := User_zero; Article_Tags := [];
     Article_Favoriters := [];
     Article_CreatedAt := 1700000000000000000%Z;
     Article_UpdatedAt := 1700000000000000000%Z |}.

Definition store : DB :=
  {| users := [Sample.alice; Sample.bob]; articles := [hello]; tags := [golang];
     article_tag := [(1%N, 1%N)]; followers := []; favoriters := [] |}.

End SampleBlog.

(** ** Vocabulary for the statements *)

(** The raw [Authorization] header of the request being served. *)
Definition Authorization (w : World) : string :=
  default "" (Request_Header (ctx w) !! "Authorization").

(** The body [authApi] sends when it rejects a request. *)
Definition unauthorized_body (text : string) : H :=
  <["message" := VString "not authorized"]> (<["error" := VString text]> ∅).

(** The row [loginUser] reads for an email, and [showProfile] and
    [unfollowProfile] for a username (the zero user if there is none). *)
Definition user_by_email (d : DB) (email : string) : User :=
  default User_zero
    (fold_left gorm.least_ID
       (List.filter (fun u => String.eqb (User_Email u) email) (users d)) None).

Definition user_by_username (d : DB) (username : string) : User :=
  default User_zero
    (fold_left gorm.least_ID
       (List.filter (fun u => String.eqb (User_Username u) username) (users d)) None).

(** The two documents of [loginUser]. *)
Definition wrong_password_body : H :=
  <["status" := VInt 401]> (<["message" := VString "wrong username or password"]> ∅).

Definition user_body (user : User) (token : string) : H :=
  <["user" := VUserResource
      {| UserResource_Username := User_Username user;
         UserResource_Email := User_Email user;
         UserResource_Bio := User_Bio user;
         UserResource_Image := User_Image user;
         UserResource_Token := token |}]> ∅.

(** The body [unfollowProfile] sends from its [Count == 0] branch. *)
Definition unathorized_error : H := <["error" := VString "Unathorized"]> ∅.

(** The claims [CreateToken] puts into a token. *)
Definition issued_claims (env : Env) (userid : uint64) : gmap string jwt.claim_value :=
  <["exp" := jwt.CInt64 (Time_Unix (Time_Add (Now env) (Minute * 15)%Z))]>
    (<["user_id" := jwt.CUint64 userid]> (<["authorized" := jwt.CBool true]> ∅)).

(** What those claims are once decoded into [MyCustomClaims]. *)
Definition decoded_claims (userid : uint64) (exp : Z) : jwt.MyCustomClaims :=
  {| jwt.UserId := userid;
     jwt.Standard := {| jwt.Audience := ""; jwt.ExpiresAt := exp; jwt.Id := "";
                        jwt.IssuedAt := 0; jwt.Issuer := ""; jwt.NotBefore := 0;
                        jwt.Subject := "" |} |}.

(** A segment of an encoded token: base64url text has neither dots nor
    spaces. *)
Definition segment (s : string) : Prop :=
  contains_byte "." s = false /\ contains_byte " " s = false.

(** What a round trip needs from the codec at one token: segments are
    clean, header and claims decode to what was encoded, and a signature
    made with [key] verifies with [key]. *)
Record round_trip {codec : jwt.Codec} (key : string)
    (claims : gmap string jwt.claim_value) (decoded : jwt.MyCustomClaims) : Prop := {
  rt_header_segment :
    segment (jwt.EncodeSegment (jwt.Marshal_Header (jwt.NewWithClaims_Header jwt.HS256)));
  rt_claims_segment : segment (jwt.EncodeSegment (jwt.Marshal_Claims claims));
  rt_header_bytes :
    jwt.DecodeSegment
      (jwt.EncodeSegment (jwt.Marshal_Header (jwt.NewWithClaims_Header jwt.HS256)))
    = inl (jwt.Marshal_Header (jwt.NewWithClaims_Header jwt.HS256));
  rt_claims_bytes :
    jwt.DecodeSegment (jwt.EncodeSegment (jwt.Marshal_Claims claims))
    = inl (jwt.Marshal_Claims claims);
  rt_header :
    jwt.Unmarshal_Header (jwt.Marshal_Header (jwt.NewWithClaims_Header jwt.HS256))
    = inl (jwt.NewWithClaims_Header jwt.HS256);
  rt_claims : jwt.Decode_Claims (jwt.Marshal_Claims claims) = inl decoded;
  rt_signature : forall sig,
    jwt.Sign jwt.HS256 (jwt.SigningString jwt.HS256 claims) key = inl sig ->
    segment sig /\
    jwt.Verify jwt.HS256 (jwt.SigningString jwt.HS256 claims) sig key = None
}.

(** [Follow.exists(a, b)]: user [a] follows user [b], i.e. the
    [followers] table has a row with [user_id = b] and [follower_id = a]
    (the predicate of the handler's [COUNT] query). *)
Definition Follow_exists (d : DB) (a b : uint64) : bool :=
  (0 <? gorm.count_followers d b a)%N.

(** The parser's errors for a token whose algorithm is not acceptable. *)
Inductive TokenWrongAlgorithm : jwt.ValidationError -> Prop :=
| WrongAlgorithm_unexpected (alg : string) :
    TokenWrongAlgorithm
      {| jwt.Inner := Some ("Unexpected signing method: " +:+ alg);
         jwt.Errors := jwt.ValidationErrorUnverifiable; jwt.text := "" |}
| WrongAlgorithm_unavailable :
    TokenWrongAlgorithm
      (jwt.NewValidationError "signing method (alg) is unavailable."
                              jwt.ValidationErrorUnverifiable)
| WrongAlgorithm_unspecified :
    TokenWrongAlgorithm
      (jwt.NewValidationError "signing method (alg) is unspecified."
                              jwt.ValidationErrorUnverifiable).

(** * Properties *)

(** ** Splitting strings *)

Lemma Split_no_sep (s : string) (sep : ascii) :
  contains_byte sep s = false -> Split s sep = [s].
Proof.
  induction s as [|a s IH]; simpl; [reflexivity|].
  intros Hc. apply orb_false_iff in Hc as [Ha Hs].
  rewrite Ha, (IH Hs). reflexivity.
Qed.

Lemma Split_app (s t : string) (sep : ascii) :
  contains_byte sep s = false ->
  Split (s +:+ String sep t) sep = s :: Split t sep.
Proof.
  induction s as [|a s IH]; simpl; intros Hc.
  - rewrite Ascii.eqb_refl. reflexivity.
  - apply orb_false_iff in Hc as [Ha Hs].
    rewrite Ha, (IH Hs). reflexivity.
Qed.

Lemma Split_Bearer (token : string) :
  contains_byte " " token = false ->
  Split ("Bearer " +:+ token) " " = ["Bearer"; token].
Proof.
  intros Hc.
  change ("Bearer " +:+ token) with ("Bearer" +:+ String " " token).
  rewrite Split_app by reflexivity.
  rewrite (Split_no_sep _ _ Hc). reflexivity.
Qed.

Lemma contains_byte_app (c : ascii) (s t : string) :
  contains_byte c (s +:+ t) = contains_byte c s || contains_byte c t.
Proof.
  induction s as [|a s IH]; simpl; [reflexivity|].
  rewrite IH, orb_assoc. reflexivity.
Qed.

Lemma append_assoc (s t u : string) : (s +:+ t) +:+ u = s +:+ (t +:+ u).
Proof.
  induction s as [|a s IH]; [reflexivity|].
  change (String a ((s +:+ t) +:+ u) = String a (s +:+ (t +:+ u))).
  rewrite IH. reflexivity.
Qed.

(** ** The token parser *)

Section ParserFacts.
Context {codec : jwt.Codec}.

Lemma ParseUnverified_not_Valid (s : string) (t : jwt.Token) parts err :
  jwt.ParseUnverified s = (Some t, parts, err) -> jwt.Valid t = false.
Proof.
  unfold jwt.ParseUnverified.
  destruct (Split s ".") as [|p0 [|p1 [|p2 [|p3 ps]]]]; try discriminate.
  destruct (jwt.DecodeSegment p0) as [headerBytes|e0];
    [|destruct (HasPrefix _ _); intros Heq; inversion Heq; reflexivity].
  destruct (jwt.Unmarshal_Header headerBytes) as [header|e1];
    [|intros Heq; inversion Heq; reflexivity].
  destruct (jwt.DecodeSegment p1) as [claimBytes|e2];
    [|intros Heq; inversion Heq; reflexivity].
  destruct (jwt.Decode_Claims claimBytes) as [claims|e3];
    [|intros Heq; inversion Heq; reflexivity].
  destruct (header !! "alg") as [alg|]; [|intros Heq; inversion Heq; reflexivity].
  destruct (jwt.GetSigningMethod alg); intros Heq; inversion Heq; reflexivity.
Qed.

(** A token that comes back together with an error is never marked valid. *)
Lemma ParseWithClaims_error_not_Valid (s : string) keyFunc now (t : jwt.Token) e :
  jwt.ParseWithClaims s keyFunc now = (Some t, Some e) -> jwt.Valid t = false.
Proof.
  unfold jwt.ParseWithClaims.
  destruct (jwt.ParseUnverified s) as [[[tok|] parts] [err|]] eqn:Hpu;
    try discriminate.
  - intros Heq; inversion Heq; subst. eapply ParseUnverified_not_Valid; eassumption.
  - pose proof (ParseUnverified_not_Valid _ _ _ _ Hpu) as Hv.
    destruct (keyFunc tok) as [key|kerr].
    + match goal with |- (if ?b then _ else _) = _ -> _ => destruct b end.
      * discriminate.
      * intros Heq; inversion Heq; subst. exact Hv.
    + intros Heq; inversion Heq; subst. exact Hv.
Qed.

(** Fewer or more than three dot-separated segments: no token at all. *)
Lemma ParseWithClaims_segments (s : string) keyFunc now :
  length (Split s ".") <> 3%nat ->
  jwt.ParseWithClaims s keyFunc now =
    (None, Some (jwt.NewValidationError "token contains an invalid number of segments"
                                        jwt.ValidationErrorMalformed)).
Proof.
  intros Hlen. unfold jwt.ParseWithClaims, jwt.ParseUnverified.
  destruct (Split s ".") as [|p0 [|p1 [|p2 [|p3 ps]]]]; simpl in *;
    try reflexivity; congruence.
Qed.

Lemma GetSigningMethod_Alg (alg : string) (m : jwt.SigningMethod) :
  jwt.GetSigningMethod alg = Some m -> jwt.Alg m = alg.
Proof.
  unfold jwt.GetSigningMethod. intros Hf.
  apply List.find_some in Hf as [_ Heq].
  apply String.eqb_eq in Heq. exact Heq.
Qed.

Lemma NewWithClaims_Header_alg (m : jwt.SigningMethod) :
  jwt.NewWithClaims_Header m !! "alg" = Some (jwt.Alg m).
Proof. unfold jwt.NewWithClaims_Header. apply lookup_insert_eq. Qed.

Lemma GetSigningMethod_HS256 : jwt.GetSigningMethod "HS256" = Some jwt.HS256.
Proof. reflexivity. Qed.

End ParserFacts.

(** ** [authApi], case by case *)

Section AuthApiFacts.
Context {codec : jwt.Codec}.
Variable env : Env.

Lemma authApi_index_panic (w : World) :
  Split (Authorization w) " " !! 1%nat = None ->
  authApi env w =
    (Panicked (IndexOutOfRange 1 (length (Split (Authorization w) " "))), w).
Proof.
  intros Hidx. unfold authApi, Authorization in *.
  unfold mbind, Handler_bind, c_Request_Header_Get, read_ctx, index. simpl.
  rewrite Hidx. reflexivity.
Qed.

Lemma authApi_nil_error (w : World) (t : string) :
  Split (Authorization w) " " !! 1%nat = Some t ->
  snd (jwt.ParseWithClaims t (keyFunc env) (Time_Unix (Now env))) = None ->
  authApi env w = (Panicked NilDereference, w).
Proof.
  intros Hidx Herr. unfold authApi, Authorization in *.
  unfold mbind, Handler_bind, c_Request_Header_Get, read_ctx, index. simpl.
  rewrite Hidx. simpl.
  destruct (jwt.ParseWithClaims t (keyFunc env) (Time_Unix (Now env))) as [tok err].
  simpl in Herr. subst err.
  destruct tok as [tok|]; reflexivity.
Qed.

Lemma authApi_rejects (w : World) (t : string) tok e :
  Split (Authorization w) " " !! 1%nat = Some t ->
  jwt.ParseWithClaims t (keyFunc env) (Time_Unix (Now env)) = (tok, Some e) ->
  authApi env w =
    (Returned tok,
     {| ctx := Context_JSON 401 (unauthorized_body (jwt.ValidationError_Error e)) (ctx w);
        db := db w |}).
Proof.
  intros Hidx Hparse. unfold authApi, Authorization in *.
  unfold mbind, Handler_bind, c_Request_Header_Get, read_ctx, index. simpl.
  rewrite Hidx. simpl. rewrite Hparse.
  destruct tok as [tok|]; [|reflexivity].
  rewrite (ParseWithClaims_error_not_Valid _ _ _ _ _ Hparse).
  reflexivity.
Qed.

End AuthApiFacts.

(** ** The authorization helper on headers without a space *)

Section Malformed.
Context {codec : jwt.Codec}.
Variable env : Env.

(** C3. The claim asks that a header without whitespace (the empty one
    included) is answered with a Malformed error and never a panic.
    [authApi] indexes the split header at 1 unguarded: on every header
    without a space the split has length 1 and the handler panics with
    an index out of range, before any response is written. *)
Theorem authApi_header_without_space_panics (w : World) :
  contains_byte " " (Authorization w) = false ->
  authApi env w = (Panicked (IndexOutOfRange 1 1), w).
Proof.
  intros Hc.
  rewrite authApi_index_panic; rewrite (Split_no_sep _ _ Hc); reflexivity.
Qed.

End Malformed.

(** The request without an [Authorization] header. *)
Lemma authApi_header_without_space_panics_witness :
  let w := {| ctx := Sample.request None "bob" None; db := Sample.store |} in
  contains_byte " " (Authorization w) = false /\
  authApi Sample.env w = (Panicked (IndexOutOfRange 1 1), w).
Proof.
  split; [reflexivity|].
  apply (authApi_header_without_space_panics Sample.env). reflexivity.
Defined.

(** ** A freshly issued token presented back *)

Section RoundTrip.
Context {codec : jwt.Codec}.

Lemma CreateToken_issued (env : Env) (userid : uint64) :
  CreateToken env userid =
    match jwt.Sign jwt.HS256 (jwt.SigningString jwt.HS256 (issued_claims env userid))
                   (Getenv env "JWT_SECRET") with
    | inl sig =>
        (Join [jwt.SigningString jwt.HS256 (issued_claims env userid); sig] ".", None)
    | inr err => ("", Some err)
    end.
Proof.
  unfold CreateToken, jwt.SignedString, issued_claims.
  destruct (jwt.Sign _ _ _); reflexivity.
Qed.

Lemma segment_Split3 (h c sig : string) :
  segment h -> segment c -> segment sig ->
  Split (Join [Join [h; c] "."; sig] ".") "." = [h; c; sig]
  /\ contains_byte " " (Join [Join [h; c] "."; sig] ".") = false.
Proof.
  intros [Hh1 Hh2] [Hc1 Hc2] [Hs1 Hs2]. simpl Join. split.
  - rewrite !append_assoc.
    change (Split (h +:+ String "." (c +:+ String "." sig)) "." = [h; c; sig]).
    rewrite (Split_app _ _ _ Hh1), (Split_app _ _ _ Hc1), (Split_no_sep _ _ Hs1).
    reflexivity.
  - rewrite !contains_byte_app, Hh2, Hc2, Hs2. reflexivity.
Qed.

Lemma verifyExp_before (exp now : Z) :
  (now <= exp)%Z -> jwt.verifyExp exp now false = true.
Proof.
  intros Hle. unfold jwt.verifyExp.
  destruct (exp =? 0)%Z; [reflexivity|]. apply Z.leb_le. exact Hle.
Qed.

(** Parsing what [SignedString] produced, before expiry and with the
    signing key: no error. *)
Lemma ParseWithClaims_fresh (env : Env) (key : string)
    (claims : gmap string jwt.claim_value) (userid : uint64) (exp : Z) (sig : string) :
  round_trip key claims (decoded_claims userid exp) ->
  jwt.Sign jwt.HS256 (jwt.SigningString jwt.HS256 claims) key = inl sig ->
  Getenv env "JWT_SECRET" = key ->
  (Time_Unix (Now env) <= exp)%Z ->
  exists t,
    jwt.ParseWithClaims (Join [jwt.SigningString jwt.HS256 claims; sig] ".")
                        (keyFunc env) (Time_Unix (Now env)) = (Some t, None)
    /\ jwt.Valid t = true
    /\ jwt.UserId (jwt.Claims t) = userid.
Proof.
  intros [Hhs Hcs Hhb Hcb Hh Hc Hsig] Hsign Hkey Hexp.
  destruct (Hsig sig Hsign) as [Hss Hver].
  destruct (segment_Split3 _ _ _ Hhs Hcs Hss) as [Hsplit _].
  unfold jwt.ParseWithClaims, jwt.ParseUnverified.
  unfold jwt.SigningString in *. rewrite Hsplit, Hhb, Hh, Hcb, Hc.
  rewrite NewWithClaims_Header_alg. simpl jwt.Alg.
  rewrite GetSigningMethod_HS256.
  unfold keyFunc. simpl jwt.Method.
  destruct (decide (jwt.GetSigningMethod "HS256" ≠ Some jwt.HS256)) as [Hne|_];
    [exfalso; apply Hne; reflexivity|].
  cbn [jwt.Claims jwt.set_Method jwt.set_Claims jwt.set_Header jwt.new_Token
       jwt.Standard decoded_claims].
  unfold jwt.StandardClaims_Valid.
  cbn [jwt.ExpiresAt jwt.IssuedAt jwt.NotBefore].
  rewrite (verifyExp_before _ _ Hexp).
  cbn [negb jwt.verifyIat jwt.verifyNbf Z.eqb jwt.ValidationError_valid jwt.Errors N.eqb].
  unfold jwt.Method_Verify.
  cbn [jwt.Method jwt.set_Method jwt.set_Signature jwt.Signature nth firstn].
  rewrite Hkey, Hver.
  cbn [jwt.ValidationError_valid jwt.Errors N.eqb].
  eexists. split; [reflexivity|]. split; reflexivity.
Qed.

(** C2. The claim asks that validating a freshly issued token, with the
    same secret and before expiry, yields the user id and no error.
    In [authApi] a parse without error makes [err == nil] true on line
    370, so the rejection branch runs and calls [err.Error()] on the nil
    error: the handler panics instead of returning the token. *)
Theorem authApi_panics_on_fresh_token (issue check : Env) (w : World)
    (userid : uint64) (token : string) :
  CreateToken issue userid = (token, None) ->
  round_trip (Getenv issue "JWT_SECRET") (issued_claims issue userid)
             (decoded_claims userid (Time_Unix (Time_Add (Now issue) (Minute * 15)%Z))) ->
  Getenv check "JWT_SECRET" = Getenv issue "JWT_SECRET" ->
  (Time_Unix (Now check) <= Time_Unix (Time_Add (Now issue) (Minute * 15)%Z))%Z ->
  Authorization w = "Bearer " +:+ token ->
  authApi check w = (Panicked NilDereference, w).
Proof.
  intros Hissue Hrt Hkey Hexp Hhdr.
  rewrite CreateToken_issued in Hissue.
  destruct (jwt.Sign _ _ _) as [sig|err] eqn:Hsign; [|discriminate].
  injection Hissue as <-.
  destruct (ParseWithClaims_fresh check _ _ _ _ _ Hrt Hsign Hkey Hexp)
    as (t & Hparse & _ & _).
  destruct Hrt as [Hhs Hcs _ _ _ _ Hsig].
  destruct (Hsig sig Hsign) as [Hss _].
  destruct (segment_Split3 _ _ _ Hhs Hcs Hss) as [_ Hnosp].
  apply authApi_nil_error
    with (t := Join [jwt.SigningString jwt.HS256 (issued_claims issue userid); sig] ".").
  - replace (Split (Authorization w) " ")
      with ["Bearer";
            Join [jwt.SigningString jwt.HS256 (issued_claims issue userid); sig] "."];
      [reflexivity|].
    rewrite Hhdr. symmetry. exact (Split_Bearer _ Hnosp).
  - rewrite Hparse. reflexivity.
Qed.

End RoundTrip.

Lemma Sample_round_trip :
  round_trip (Getenv Sample.env "JWT_SECRET") (issued_claims Sample.env 1%N)
    (decoded_claims 1%N (Time_Unix (Time_Add (Now Sample.env) (Minute * 15)%Z))).
Proof.
  split; try (split; reflexivity); try reflexivity.
  intros sig Hsign. vm_compute in Hsign. injection Hsign as <-.
  split; [split; reflexivity | reflexivity].
Qed.

(** User 1's token, issued and presented within the same second. *)
Lemma authApi_panics_on_fresh_token_witness :
  let token := "616c673a4853323536.75316531373030303030393030.m8495" in
  let w := {| ctx := Sample.request (Some ("Bearer " +:+ token)) "bob" None;
              db := Sample.store |} in
  CreateToken Sample.env 1%N = (token, None) /\
  Getenv Sample.env "JWT_SECRET" = Getenv Sample.env "JWT_SECRET" /\
  (Time_Unix (Now Sample.env)
   <= Time_Unix (Time_Add (Now Sample.env) (Minute * 15)%Z))%Z /\
  Authorization w = "Bearer " +:+ token /\
  authApi Sample.env w = (Panicked NilDereference, w).
Proof.
  intros token w.
  assert (Hissue : CreateToken Sample.env 1%N = (token, None)) by reflexivity.
  assert (Hexp : (Time_Unix (Now Sample.env)
                  <= Time_Unix (Time_Add (Now Sample.env) (Minute * 15)%Z))%Z)
    by (vm_compute; discriminate).
  split; [exact Hissue|]. split; [reflexivity|]. split; [exact Hexp|].
  split; [reflexivity|].
  exact (authApi_panics_on_fresh_token Sample.env Sample.env w 1%N token
           Hissue Sample_round_trip eq_refl Hexp eq_refl).
Defined.

(** ** [unfollowProfile] *)

Section Unfollow.
Context {codec : jwt.Codec}.
Variable env : Env.

Lemma unfollowProfile_panics (w w1 : World) (p : panic) :
  authApi env w = (Panicked p, w1) ->
  unfollowProfile env w = (Panicked p, w1).
Proof.
  intros Hauth. unfold unfollowProfile.
  unfold mbind at 1. unfold Handler_bind at 1. rewrite Hauth. reflexivity.
Qed.

(** Past [authApi], the handler always takes the [Count == 0] branch (the
    COUNT statement binds one value for two placeholders and leaves
    [result] at zero), and the DELETE statement is built but never run. *)
Lemma unfollowProfile_returns (w w1 : World) (tok : option jwt.Token) :
  authApi env w = (Returned tok, w1) ->
  unfollowProfile env w =
    (Returned tt,
     {| ctx := Context_Abort
                 (Context_JSON 402 unathorized_error
                    (Context_JSON 200 (<["token" := VToken tok]> ∅) (ctx w1)));
        db := db w1 |}).
Proof.
  intros Hauth. unfold unfollowProfile.
  unfold mbind at 1. unfold Handler_bind at 1. rewrite Hauth.
  reflexivity.
Qed.

End Unfollow.

Section UnfollowClaims.
Context {codec : jwt.Codec}.
Variable env : Env.
Variables (header params : gmap string string) (body : option LoginRequest) (d : DB).

(** C4. A request to the protected mutation route ([unfollowProfile], the
    one handler that calls [authApi]) whose bearer token -- the second
    space-separated field of the header -- fails validation: the handler
    runs to its end, the status line sent to the client is 401
    Unauthorized, no value is attached to the request context, and the
    store (followers and favoriters included) is the same afterwards. *)
Theorem unfollowProfile_invalid_token_unauthorized (t : string) :
  let w := {| ctx := new_Context header params body; db := d |} in
  Split (Authorization w) " " !! 1%nat = Some t ->
  snd (jwt.ParseWithClaims t (keyFunc env) (Time_Unix (Now env))) <> None ->
  exists w',
    unfollowProfile env w = (Returned tt, w')
    /\ Writer_sent (ctx w') = Some 401%Z
    /\ Keys (ctx w') = ∅
    /\ db w' = d.
Proof.
  intros w Hidx Herr.
  destruct (jwt.ParseWithClaims t (keyFunc env) (Time_Unix (Now env)))
    as [tok [e|]] eqn:Hparse; [|contradiction].
  pose proof (authApi_rejects env w t tok e Hidx Hparse) as Hauth.
  eexists. split; [exact (unfollowProfile_returns env w _ tok Hauth)|].
  repeat split.
Qed.


End UnfollowClaims.

(** The follow and favorite handlers are stubs: they answer [pong]
    without looking at the request or the store. *)
Lemma stub_handlers_pong (w : World) :
  let answered := {| ctx := Context_JSON 200 (<["message" := VString "pong"]> ∅) (ctx w);
                     db := db w |} in
  followProfile w = (Returned tt, answered)
  /\ favoriteArticle w = (Returned tt, answered)
  /\ unfavoriteArticle w = (Returned tt, answered).
Proof. repeat split. Qed.

(** The header [Bearer garbage] on [DELETE profiles/bob/follow]. *)
Lemma unfollowProfile_invalid_token_unauthorized_witness :
  let w := {| ctx := new_Context (<["Authorization" := "Bearer garbage"]> ∅)
                                 (<["username" := "bob"]> ∅) None;
              db := Sample.store |} in
  Split (Authorization w) " " !! 1%nat = Some "garbage" /\
  snd (jwt.ParseWithClaims "garbage" (keyFunc Sample.env)
                           (Time_Unix (Now Sample.env))) <> None /\
  exists w',
    unfollowProfile Sample.env w = (Returned tt, w')
    /\ Writer_sent (ctx w') = Some 401%Z
    /\ Keys (ctx w') = ∅
    /\ db w' = Sample.store.
Proof.
  intros w.
  assert (Hidx : Split (Authorization w) " " !! 1%nat = Some "garbage") by reflexivity.
  assert (Herr : snd (jwt.ParseWithClaims "garbage" (keyFunc Sample.env)
                        (Time_Unix (Now Sample.env))) <> None) by discriminate.
  split; [exact Hidx|]. split; [exact Herr|].
  exact (unfollowProfile_invalid_token_unauthorized Sample.env _ _ None Sample.store
           "garbage" Hidx Herr).
Defined.



(** ** What a rejection tells the client *)

Section Rejection.
Context {codec : jwt.Codec}.

Lemma ParseUnverified_parts (s : string) tok parts err :
  jwt.ParseUnverified s = (tok, parts, err) -> parts = Split s ".".
Proof.
  unfold jwt.ParseUnverified.
  destruct (Split s ".") as [|p0 [|p1 [|p2 [|p3 ps]]]];
    try (intros Heq; inversion Heq; reflexivity).
  destruct (jwt.DecodeSegment p0) as [headerBytes|e0];
    [|destruct (HasPrefix _ _); intros Heq; inversion Heq; reflexivity].
  destruct (jwt.Unmarshal_Header headerBytes) as [header|e1];
    [|intros Heq; inversion Heq; reflexivity].
  destruct (jwt.DecodeSegment p1) as [claimBytes|e2];
    [|intros Heq; inversion Heq; reflexivity].
  destruct (jwt.Decode_Claims claimBytes) as [claims|e3];
    [|intros Heq; inversion Heq; reflexivity].
  destruct (header !! "alg") as [alg|]; [|intros Heq; inversion Heq; reflexivity].
  destruct (jwt.GetSigningMethod alg); intros Heq; inversion Heq; reflexivity.
Qed.

(** The signing secret enters the parse through the signature check
    alone. *)
Lemma ParseWithClaims_secret (env env' : Env) (t : string) (now : Z) :
  jwt.Verify jwt.HS256 (Join (firstn 2 (Split t ".")) ".") (nth 2 (Split t ".") "")
             (Getenv env' "JWT_SECRET")
  = jwt.Verify jwt.HS256 (Join (firstn 2 (Split t ".")) ".") (nth 2 (Split t ".") "")
               (Getenv env "JWT_SECRET") ->
  jwt.ParseWithClaims t (keyFunc env') now = jwt.ParseWithClaims t (keyFunc env) now.
Proof.
  intros Hverdict. unfold jwt.ParseWithClaims.
  destruct (jwt.ParseUnverified t) as [[[tok|] parts] [err|]] eqn:Hpu; try reflexivity.
  apply ParseUnverified_parts in Hpu as ->.
  unfold keyFunc.
  destruct (decide (jwt.GetSigningMethod "HS256" ≠ jwt.Method tok)) as [Hne|Heq];
    [reflexivity|].
  apply dec_stable in Heq. rewrite GetSigningMethod_HS256 in Heq.
  unfold jwt.Method_Verify.
  cbn [jwt.Method jwt.set_Signature jwt.Signature].
  rewrite <- Heq, Hverdict. reflexivity.
Qed.

Lemma authApi_secret (env env' : Env) (w : World) (t : string) :
  Split (Authorization w) " " !! 1%nat = Some t ->
  Now env' = Now env ->
  jwt.ParseWithClaims t (keyFunc env') (Time_Unix (Now env))
  = jwt.ParseWithClaims t (keyFunc env) (Time_Unix (Now env)) ->
  authApi env' w = authApi env w.
Proof.
  intros Hidx Hnow Hparse. unfold authApi, Authorization in *.
  unfold mbind, Handler_bind, c_Request_Header_Get, read_ctx, index. simpl.
  rewrite Hidx. simpl. rewrite Hnow, Hparse. reflexivity.
Qed.

(** C5, as the handler has it.  On every validation failure [authApi]
    answers 401 with exactly two fields: [message], the fixed text
    [not authorized], and [error], the validator's error text verbatim.
    The signing secret reaches the response through the verdict of the
    signature check only: a second secret under which the check of the
    presented token comes out the same gives the same response. *)
Theorem authApi_failure_sends_error_text (env env' : Env) (w : World) (t : string)
    (tok : option jwt.Token) (e : jwt.ValidationError) :
  Split (Authorization w) " " !! 1%nat = Some t ->
  jwt.ParseWithClaims t (keyFunc env) (Time_Unix (Now env)) = (tok, Some e) ->
  Now env' = Now env ->
  jwt.Verify jwt.HS256 (Join (firstn 2 (Split t ".")) ".") (nth 2 (Split t ".") "")
             (Getenv env' "JWT_SECRET")
  = jwt.Verify jwt.HS256 (Join (firstn 2 (Split t ".")) ".") (nth 2 (Split t ".") "")
               (Getenv env "JWT_SECRET") ->
  authApi env w =
    (Returned tok,
     {| ctx := Context_JSON 401
                 (<["message" := VString "not authorized"]>
                    (<["error" := VString (jwt.ValidationError_Error e)]> ∅))
                 (ctx w);
        db := db w |})
  /\ authApi env' w = authApi env w.
Proof.
  intros Hidx Hparse Hnow Hverdict. split.
  - exact (authApi_rejects env w t tok e Hidx Hparse).
  - apply (authApi_secret env env' w t Hidx Hnow).
    apply ParseWithClaims_secret. exact Hverdict.
Qed.

(** C6. A token with three segments whose header and payload decode and
    whose header names an algorithm other than HS256 (or none at all):
    the parse fails with a wrong-algorithm error, the token that comes
    back is not marked valid, and [authApi] answers 401 without touching
    the request context's values or the store. *)
Theorem authApi_rejects_other_algorithms (env : Env) (w : World)
    (t p0 p1 p2 headerBytes claimBytes : string)
    (hdr : gmap string string) (claims : jwt.MyCustomClaims) :
  Split (Authorization w) " " !! 1%nat = Some t ->
  Split t "." = [p0; p1; p2] ->
  jwt.DecodeSegment p0 = inl headerBytes ->
  jwt.Unmarshal_Header headerBytes = inl hdr ->
  jwt.DecodeSegment p1 = inl claimBytes ->
  jwt.Decode_Claims claimBytes = inl claims ->
  hdr !! "alg" <> Some "HS256" ->
  exists tok e,
    jwt.ParseWithClaims t (keyFunc env) (Time_Unix (Now env)) = (Some tok, Some e)
    /\ TokenWrongAlgorithm e
    /\ jwt.Valid tok = false
    /\ authApi env w =
         (Returned (Some tok),
          {| ctx := Context_JSON 401 (unauthorized_body (jwt.ValidationError_Error e))
                                 (ctx w);
             db := db w |}).
Proof.
  intros Hidx Hsplit Hhb Hh Hcb Hc Halg.
  assert (Hparse : exists tok e,
    jwt.ParseWithClaims t (keyFunc env) (Time_Unix (Now env)) = (Some tok, Some e)
    /\ TokenWrongAlgorithm e).
  { unfold jwt.ParseWithClaims, jwt.ParseUnverified.
    rewrite Hsplit, Hhb, Hh, Hcb, Hc.
    destruct (hdr !! "alg") as [alg|] eqn:Hlook.
    - destruct (jwt.GetSigningMethod alg) as [m|] eqn:Hm.
      + unfold keyFunc.
        cbn [jwt.Method jwt.set_Method jwt.Header jwt.set_Claims jwt.set_Header
             jwt.new_Token].
        destruct (decide (jwt.GetSigningMethod "HS256" ≠ Some m)) as [_|Heq].
        * rewrite Hlook. do 2 eexists. split; [reflexivity|]. constructor.
        * exfalso. apply dec_stable in Heq. rewrite GetSigningMethod_HS256 in Heq.
          injection Heq as <-. apply GetSigningMethod_Alg in Hm.
          apply Halg. rewrite <- Hm. reflexivity.
      + do 2 eexists. split; [reflexivity|]. constructor.
    - do 2 eexists. split; [reflexivity|]. constructor. }
  destruct Hparse as (tok & e & Hparse & Hwrong).
  exists tok, e. split; [exact Hparse|]. split; [exact Hwrong|].
  split; [exact (ParseWithClaims_error_not_Valid _ _ _ _ _ Hparse)|].
  exact (authApi_rejects env w t (Some tok) e Hidx Hparse).
Qed.

End Rejection.

(** An HS256-labelled token whose signature does not verify, under two
    different secrets. *)
Lemma authApi_failure_sends_error_text_witness :
  let t := "616c673a4853323536.75316531373030303030393030.m0000" in
  let w := {| ctx := Sample.request (Some ("Bearer " +:+ t)) "bob" None;
              db := Sample.store |} in
  let tok := fst (jwt.ParseWithClaims t (keyFunc Sample.env)
                                      (Time_Unix (Now Sample.env))) in
  let e := {| jwt.Inner := Some "signature is invalid";
              jwt.Errors := jwt.ValidationErrorSignatureInvalid; jwt.text := "" |} in
  let env' := Sample.env_with "another secret" in
  Split (Authorization w) " " !! 1%nat = Some t /\
  jwt.ParseWithClaims t (keyFunc Sample.env) (Time_Unix (Now Sample.env))
  = (tok, Some e) /\
  Now env' = Now Sample.env /\
  jwt.Verify jwt.HS256 (Join (firstn 2 (Split t ".")) ".") (nth 2 (Split t ".") "")
             (Getenv env' "JWT_SECRET")
  = jwt.Verify jwt.HS256 (Join (firstn 2 (Split t ".")) ".") (nth 2 (Split t ".") "")
               (Getenv Sample.env "JWT_SECRET") /\
  authApi Sample.env w =
    (Returned tok,
     {| ctx := Context_JSON 401
                 (<["message" := VString "not authorized"]>
                    (<["error" := VString "signature is invalid"]> ∅))
                 (ctx w);
        db := db w |})
  /\ authApi env' w = authApi Sample.env w.
Proof.
  intros t w tok e env'.
  assert (Hidx : Split (Authorization w) " " !! 1%nat = Some t) by reflexivity.
  assert (Hparse : jwt.ParseWithClaims t (keyFunc Sample.env)
                     (Time_Unix (Now Sample.env)) = (tok, Some e)) by reflexivity.
  assert (Hverdict :
    jwt.Verify jwt.HS256 (Join (firstn 2 (Split t ".")) ".") (nth 2 (Split t ".") "")
               (Getenv env' "JWT_SECRET")
    = jwt.Verify jwt.HS256 (Join (firstn 2 (Split t ".")) ".") (nth 2 (Split t ".") "")
                 (Getenv Sample.env "JWT_SECRET")) by reflexivity.
  split; [exact Hidx|]. split; [exact Hparse|]. split; [reflexivity|].
  split; [exact Hverdict|].
  exact (authApi_failure_sends_error_text Sample.env env' w t tok e
           Hidx Hparse eq_refl Hverdict).
Defined.

(** C5 as stated fails: for the header [Bearer garbage] the body sent to
    the client carries the parser's error text. *)
Lemma authApi_failure_sends_error_text_counterexample :
  let w := {| ctx := Sample.request (Some "Bearer garbage") "bob" None;
              db := Sample.store |} in
  option_map jwt.ValidationError_Error
    (snd (jwt.ParseWithClaims "garbage" (keyFunc Sample.env)
                              (Time_Unix (Now Sample.env))))
  = Some "token contains an invalid number of segments" /\
  Writer_body (ctx (snd (authApi Sample.env w))) =
    [<["message" := VString "not authorized"]>
       (<["error" := VString "token contains an invalid number of segments"]> ∅)].
Proof. split; reflexivity. Qed.

(** A token labelled HS384. *)
Lemma authApi_rejects_other_algorithms_witness :
  let t := "616c673a4853333834.75316531373030303030393030.m0000" in
  let w := {| ctx := Sample.request (Some ("Bearer " +:+ t)) "bob" None;
              db := Sample.store |} in
  let hdr : gmap string string := <["alg" := "HS384"]> (<["typ" := "JWT"]> ∅) in
  let claims := decoded_claims 1%N 1700000900%Z in
  Split (Authorization w) " " !! 1%nat = Some t /\
  Split t "." = ["616c673a4853333834"; "75316531373030303030393030"; "m0000"] /\
  jwt.DecodeSegment "616c673a4853333834" = inl "alg:HS384" /\
  jwt.Unmarshal_Header "alg:HS384" = inl hdr /\
  jwt.DecodeSegment "75316531373030303030393030" = inl "u1e1700000900" /\
  jwt.Decode_Claims "u1e1700000900" = inl claims /\
  hdr !! "alg" <> Some "HS256" /\
  exists tok e,
    jwt.ParseWithClaims t (keyFunc Sample.env) (Time_Unix (Now Sample.env))
    = (Some tok, Some e)
    /\ TokenWrongAlgorithm e
    /\ jwt.Valid tok = false
    /\ authApi Sample.env w =
         (Returned (Some tok),
          {| ctx := Context_JSON 401 (unauthorized_body (jwt.ValidationError_Error e))
                                 (ctx w);
             db := db w |}).
Proof.
  intros t w hdr claims.
  assert (Hidx : Split (Authorization w) " " !! 1%nat = Some t) by reflexivity.
  assert (Hsplit : Split t "."
                   = ["616c673a4853333834"; "75316531373030303030393030"; "m0000"])
    by reflexivity.
  assert (Hhb : jwt.DecodeSegment "616c673a4853333834" = inl "alg:HS384") by reflexivity.
  assert (Hh : jwt.Unmarshal_Header "alg:HS384" = inl hdr) by reflexivity.
  assert (Hcb : jwt.DecodeSegment "75316531373030303030393030" = inl "u1e1700000900")
    by reflexivity.
  assert (Hc : jwt.Decode_Claims "u1e1700000900" = inl claims) by reflexivity.
  assert (Halg : hdr !! "alg" <> Some "HS256") by (vm_compute; discriminate).
  split; [exact Hidx|]. split; [exact Hsplit|]. split; [exact Hhb|].
  split; [exact Hh|]. split; [exact Hcb|]. split; [exact Hc|]. split; [exact Halg|].
  exact (authApi_rejects_other_algorithms Sample.env w t _ _ _ _ _ hdr claims
           Hidx Hsplit Hhb Hh Hcb Hc Halg).
Defined.

(** ** Login *)

Section Login.
Context {codec : jwt.Codec} {bcrypt : Bcrypt}.
Variable env : Env.

(** C1. The claim asks that a login whose password check fails gets the
    unauthorized response and neither a token nor a user resource.
    [loginUser] writes the 401 document and, with no [return] after it,
    goes on to issue a token for the row it read and to write the user
    resource carrying that token. *)
Theorem loginUser_failed_check_still_issues_token (w : World) (r : LoginRequest)
    (reason token : string) :
  let user := user_by_email (db w) (LoginUser_Email (LoginRequest_Data r)) in
  Request_Body (ctx w) = Some r ->
  CompareHashAndPassword (User_Password user)
                         (LoginUser_Password (LoginRequest_Data r)) = Some reason ->
  CreateToken env (User_ID user) = (token, None) ->
  loginUser env w =
    (Returned tt,
     {| ctx := Context_JSON 200 (user_body user token)
                 (Context_JSON 401 wrong_password_body (ctx w));
        db := db w |}).
Proof.
  intros user Hbody Hcheck Hissue.
  unfold loginUser, mbind, Handler_bind, c_BindJSON. rewrite Hbody.
  unfold gorm.First_User, read_db.
  fold (user_by_email (db w) (LoginUser_Email (LoginRequest_Data r))). fold user.
  rewrite Hcheck. cbn [c_JSON on_ctx ctx db]. rewrite Hissue. reflexivity.
Qed.

End Login.

(** Alice's email with a wrong password. *)
Lemma loginUser_failed_check_still_issues_token_witness :
  let r := {| LoginRequest_Data :=
                {| LoginUser_Email := "alice@example.com";
                   LoginUser_Password := "looking-glass" |} |} in
  let w := {| ctx := Sample.request None "" (Some r); db := Sample.store |} in
  let token := "616c673a4853323536.75316531373030303030393030.m8495" in
  Request_Body (ctx w) = Some r /\
  CompareHashAndPassword (User_Password Sample.alice) "looking-glass"
  = Some "crypto/bcrypt: hashedSecret too short to be a bcrypted password" /\
  CreateToken Sample.env 1%N = (token, None) /\
  loginUser Sample.env w =
    (Returned tt,
     {| ctx := Context_JSON 200 (user_body Sample.alice token)
                 (Context_JSON 401 wrong_password_body (ctx w));
        db := db w |}).
Proof.
  intros r w token.
  assert (Hbody : Request_Body (ctx w) = Some r) by reflexivity.
  assert (Hcheck : CompareHashAndPassword (User_Password Sample.alice) "looking-glass"
            = Some "crypto/bcrypt: hashedSecret too short to be a bcrypted password")
    by reflexivity.
  assert (Hissue : CreateToken Sample.env 1%N = (token, None)) by reflexivity.
  split; [exact Hbody|]. split; [exact Hcheck|]. split; [exact Hissue|].
  exact (loginUser_failed_check_still_issues_token Sample.env w r _ token
           Hbody Hcheck Hissue).
Defined.

(** ** Profiles *)

(** C8, as the handler has it.  Every profile [showProfile] renders has
    [following] false: the handler reads neither the [Authorization]
    header nor the followers table, so the field is false with and
    without an authenticated viewer, whether or not the viewer follows
    the subject. *)
Theorem showProfile_following_false (w : World) :
  exists profile : Profile,
    showProfile w =
      (Returned tt,
       {| ctx := Context_JSON 200 (<["profile" := VProfile profile]> ∅) (ctx w);
          db := db w |})
    /\ Profile_Username profile
       = User_Username (user_by_username (db w) (default "" (Params (ctx w) !! "username")))
    /\ Profile_Following profile = false.
Proof.
  set (subject := user_by_username (db w) (default "" (Params (ctx w) !! "username"))).
  exists {| Profile_Username := User_Username subject; Profile_Bio := User_Bio subject;
            Profile_Image := User_Image subject; Profile_Following := false |}.
  split; [reflexivity|]. split; reflexivity.
Qed.

(** C8 as stated fails: alice (1) follows bob (2) and presents her own
    fresh token, yet bob's profile is rendered with [following] false. *)
Lemma showProfile_following_counterexample :
  let w := {| ctx := Sample.request
                       (Some ("Bearer " +:+ fst (CreateToken Sample.env 1%N))) "bob" None;
              db := Sample.store |} in
  Follow_exists Sample.store 1%N 2%N = true /\
  Writer_body (ctx (snd (showProfile w))) =
    [<["profile" := VProfile {| Profile_Username := "bob"; Profile_Bio := "";
                                Profile_Image := ""; Profile_Following := false |}]> ∅].
Proof. split; reflexivity. Qed.

(** ** Token issuance *)

Section Issue.
Context {codec : jwt.Codec}.
Variable env : Env.

Lemma Unix_after_15_minutes (now : Time) :
  Time_Unix (Time_Add now (Minute * 15)%Z) = (Time_Unix now + 15 * 60)%Z.
Proof.
  unfold Time_Unix, Time_Add, Minute.
  replace (now + 60 * Second * 15)%Z with (now + (15 * 60) * Second)%Z by ring.
  apply Z.div_add. discriminate.
Qed.

(** C9. [CreateToken] signs, with HS256 and the configured secret, a
    claims map holding exactly [authorized = true], [user_id = userid]
    and [exp = now + 15 minutes] (in Unix seconds); it returns the signed
    string, and an error (with the empty string) exactly when signing
    itself returns one. *)
Theorem CreateToken_claims_and_signature (userid : uint64) :
  exists claims : gmap string jwt.claim_value,
    claims !! "authorized" = Some (jwt.CBool true)
    /\ claims !! "user_id" = Some (jwt.CUint64 userid)
    /\ claims !! "exp" = Some (jwt.CInt64 (Time_Unix (Now env) + 15 * 60))
    /\ (forall k, k <> "authorized" -> k <> "user_id" -> k <> "exp" -> claims !! k = None)
    /\ jwt.NewWithClaims_Header jwt.HS256 !! "alg" = Some "HS256"
    /\ CreateToken env userid =
         match jwt.Sign jwt.HS256
                        (jwt.SigningString jwt.HS256 claims)
                        (Getenv env "JWT_SECRET") with
         | inl sig =>
             (Join [jwt.SigningString jwt.HS256 claims; sig] ".", None)
         | inr err => ("", Some err)
         end.
Proof.
  exists (issued_claims env userid). unfold issued_claims.
  rewrite Unix_after_15_minutes.
  split; [reflexivity|]. split; [reflexivity|]. split; [apply lookup_insert_eq|].
  split.
  - intros k Ha Hu He. rewrite !lookup_insert_ne by congruence. apply lookup_empty.
  - split; [apply NewWithClaims_Header_alg|].
    rewrite CreateToken_issued. unfold issued_claims, jwt.SigningString.
    rewrite Unix_after_15_minutes. reflexivity.
Qed.

End Issue.

(** ** The article list *)

Section Articles.
Variable Format_RFC3339 : Time -> string.

Lemma append_each {A B : Type} (f : A -> B) (l : list A) (acc : list B) :
  fold_left (fun coll a => coll ++ [f a]) l acc = acc ++ List.map f l.
Proof.
  revert acc. induction l as [|a l IH]; intros acc; simpl.
  - rewrite app_nil_r. reflexivity.
  - rewrite IH, <- app_assoc. reflexivity.
Qed.

(** C10. In the document [getArticles] writes, [articlesCount] is the
    number of elements of [articles]. *)
Theorem getArticles_count_is_length (w : World) :
  exists (doc : H) (coll : list ArticleResource) (n : Z),
    getArticles Format_RFC3339 w =
      (Returned tt, {| ctx := Context_JSON 200 doc (ctx w); db := db w |})
    /\ doc !! "articles" = Some (VArticleResources coll)
    /\ doc !! "articlesCount" = Some (VInt n)
    /\ n = Z.of_nat (length coll).
Proof.
  set (rows := List.map (gorm.preload (db w)) (articles (db w))).
  set (coll := fold_left (fun coll article => coll ++ [to_resource Format_RFC3339 article])
                         rows []).
  exists (<["articles" := VArticleResources coll]>
            (<["articlesCount" := VInt (Z.of_nat (length rows))]> ∅)),
         coll, (Z.of_nat (length rows)).
  split; [reflexivity|].
  split; [apply lookup_insert_eq|].
  split; [rewrite lookup_insert_ne by discriminate; apply lookup_insert_eq|].
  unfold coll. rewrite append_each, app_nil_l, length_map. reflexivity.
Qed.

End Articles.

(** * Further properties of the handlers *)

(** ** [authApi] as a whole *)

Section AuthApiWhole.
Context {codec : jwt.Codec}.
Variable env : Env.

Lemma Split_length_pos (s : string) (sep : ascii) : (1 <= length (Split s sep))%nat.
Proof.
  destruct s as [|a s]; simpl; [lia|].
  destruct (Ascii.eqb a sep); simpl; [lia|].
  destruct (Split s sep); simpl; lia.
Qed.

Lemma Split_no_second_field (s : string) (sep : ascii) :
  Split s sep !! 1%nat = None -> length (Split s sep) = 1%nat.
Proof.
  intros Hnone. pose proof (Split_length_pos s sep) as Hpos.
  apply lookup_ge_None in Hnone. lia.
Qed.

(** The three ways [authApi] can end. *)
Lemma authApi_cases (w : World) :
  authApi env w = (Panicked (IndexOutOfRange 1 1), w)
  \/ authApi env w = (Panicked NilDereference, w)
  \/ exists tok e,
       authApi env w =
         (Returned tok,
          {| ctx := Context_JSON 401 (unauthorized_body (jwt.ValidationError_Error e))
                                 (ctx w);
             db := db w |})
       /\ forall t, tok = Some t -> jwt.Valid t = false.
Proof.
  destruct (Split (Authorization w) " " !! 1%nat) as [t|] eqn:Hidx.
  - destruct (jwt.ParseWithClaims t (keyFunc env) (Time_Unix (Now env)))
      as [tok [e|]] eqn:Hparse.
    + right; right. exists tok, e. split.
      * exact (authApi_rejects env w t tok e Hidx Hparse).
      * intros t' ->. exact (ParseWithClaims_error_not_Valid _ _ _ _ _ Hparse).
    + right; left. apply (authApi_nil_error env w t Hidx). rewrite Hparse. reflexivity.
  - left. rewrite (authApi_index_panic env w Hidx).
    rewrite (Split_no_second_field _ _ Hidx). reflexivity.
Qed.

(** X1. [authApi] never lets a request through: whatever the header, it
    either panics (index out of range, or nil dereference) leaving
    context and store as they were, or it returns after writing the 401
    document, and then the token it returns, if any, is not marked
    valid. *)
Theorem authApi_never_accepts (w : World) :
  authApi env w = (Panicked (IndexOutOfRange 1 1), w)
  \/ authApi env w = (Panicked NilDereference, w)
  \/ exists tok e,
       authApi env w =
         (Returned tok,
          {| ctx := Context_JSON 401 (unauthorized_body (jwt.ValidationError_Error e))
                                 (ctx w);
             db := db w |})
       /\ forall t, tok = Some t -> jwt.Valid t = false.
Proof. exact (authApi_cases w). Qed.

Lemma Authorization_request_with (h : string) params body d :
  Authorization (request_with h params body d) = h.
Proof. unfold Authorization, request_with, new_Context. simpl. rewrite lookup_insert_eq. reflexivity. Qed.

Lemma Split_scheme (scheme rest : string) :
  contains_byte " " scheme = false ->
  Split (scheme +:+ String " " rest) " " !! 1%nat = Split rest " " !! 0%nat.
Proof. intros Hc. rewrite (Split_app _ _ _ Hc). reflexivity. Qed.

(** X2. [authApi] looks at the second space-separated field of the
    header and at nothing else: the scheme word in front of it is never
    compared with [Bearer].  Two requests that differ only in that word
    end the same way and are sent the same response. *)
Theorem authApi_ignores_scheme (scheme1 scheme2 rest : string)
    (params : gmap string string) (body : option LoginRequest) (d : DB) :
  contains_byte " " scheme1 = false ->
  contains_byte " " scheme2 = false ->
  let w1 := request_with (scheme1 +:+ String " " rest) params body d in
  let w2 := request_with (scheme2 +:+ String " " rest) params body d in
  fst (authApi env w1) = fst (authApi env w2)
  /\ Writer_sent (ctx (snd (authApi env w1))) = Writer_sent (ctx (snd (authApi env w2)))
  /\ Writer_body (ctx (snd (authApi env w1))) = Writer_body (ctx (snd (authApi env w2))).
Proof.
  intros Hs1 Hs2 w1 w2.
  assert (H1 : Split (Authorization w1) " " !! 1%nat = Split rest " " !! 0%nat).
  { unfold w1. rewrite Authorization_request_with. exact (Split_scheme _ _ Hs1). }
  assert (H2 : Split (Authorization w2) " " !! 1%nat = Split rest " " !! 0%nat).
  { unfold w2. rewrite Authorization_request_with. exact (Split_scheme _ _ Hs2). }
  destruct (Split rest " " !! 0%nat) as [t|] eqn:Hfield.
  - destruct (jwt.ParseWithClaims t (keyFunc env) (Time_Unix (Now env)))
      as [tok [e|]] eqn:Hparse.
    + rewrite (authApi_rejects env w1 t tok e H1 Hparse).
      rewrite (authApi_rejects env w2 t tok e H2 Hparse).
      repeat split.
    + assert (Hnil : snd (jwt.ParseWithClaims t (keyFunc env) (Time_Unix (Now env)))
                     = None) by (rewrite Hparse; reflexivity).
      rewrite (authApi_nil_error env w1 t H1 Hnil).
      rewrite (authApi_nil_error env w2 t H2 Hnil).
      repeat split.
  - pose proof (Split_length_pos rest " ") as Hpos.
    apply lookup_ge_None in Hfield. lia.
Qed.

(** The key function hands the signing secret to the parser for
    tokens whose method is HS256 and for no others. *)
Theorem keyFunc_secret_only_for_HS256 (tok : jwt.Token) (key : string) :
  keyFunc env tok = inl key <->
  jwt.Method tok = Some jwt.HS256 /\ key = Getenv env "JWT_SECRET".
Proof.
  unfold keyFunc. rewrite GetSigningMethod_HS256.
  destruct (decide (Some jwt.HS256 ≠ jwt.Method tok)) as [Hne|Heq].
  - split; [discriminate|]. intros [Hm _]. exfalso. apply Hne. rewrite Hm. reflexivity.
  - apply dec_stable in Heq. split.
    + intros [= <-]. split; [symmetry; exact Heq | reflexivity].
    + intros [_ ->]. reflexivity.
Qed.

End AuthApiWhole.

(** The schemes [Bearer] and [Basic] in front of the same garbage. *)
Lemma authApi_ignores_scheme_witness :
  let w1 := request_with "Bearer garbage" ∅ None Sample.store in
  let w2 := request_with "Basic garbage" ∅ None Sample.store in
  contains_byte " " "Bearer" = false /\
  contains_byte " " "Basic" = false /\
  fst (authApi Sample.env w1) = fst (authApi Sample.env w2)
  /\ Writer_sent (ctx (snd (authApi Sample.env w1)))
     = Writer_sent (ctx (snd (authApi Sample.env w2)))
  /\ Writer_body (ctx (snd (authApi Sample.env w1)))
     = Writer_body (ctx (snd (authApi Sample.env w2))).
Proof.
  intros w1 w2.
  assert (Hs1 : contains_byte " " "Bearer" = false) by reflexivity.
  assert (Hs2 : contains_byte " " "Basic" = false) by reflexivity.
  split; [exact Hs1|]. split; [exact Hs2|].
  exact (authApi_ignores_scheme Sample.env "Bearer" "Basic" "garbage" ∅ None Sample.store
           Hs1 Hs2).
Defined.

(** ** Issued tokens under the parser *)

Section IssuedTokens.
Context {codec : jwt.Codec}.

(** The token [ParseUnverified] builds from an issued token string. *)
Lemma ParseUnverified_issued (key : string) (claims : gmap string jwt.claim_value)
    (decoded : jwt.MyCustomClaims) (sig : string) :
  round_trip key claims decoded ->
  jwt.Sign jwt.HS256 (jwt.SigningString jwt.HS256 claims) key = inl sig ->
  let token := Join [jwt.SigningString jwt.HS256 claims; sig] "." in
  jwt.ParseUnverified token =
    (Some (jwt.set_Method jwt.HS256
             (jwt.set_Claims decoded
                (jwt.set_Header (jwt.NewWithClaims_Header jwt.HS256)
                   (jwt.new_Token token)))),
     [jwt.EncodeSegment (jwt.Marshal_Header (jwt.NewWithClaims_Header jwt.HS256));
      jwt.EncodeSegment (jwt.Marshal_Claims claims); sig],
     None).
Proof.
  intros [Hhs Hcs Hhb Hcb Hh Hc Hsig] Hsign token.
  destruct (Hsig sig Hsign) as [Hss _].
  destruct (segment_Split3 _ _ _ Hhs Hcs Hss) as [Hsplit _].
  unfold jwt.ParseUnverified. unfold token, jwt.SigningString.
  rewrite Hsplit, Hhb, Hh, Hcb, Hc, NewWithClaims_Header_alg.
  simpl jwt.Alg. rewrite GetSigningMethod_HS256. reflexivity.
Qed.

Lemma keyFunc_HS256 (env : Env) (t : jwt.Token) :
  jwt.Method t = Some jwt.HS256 -> keyFunc env t = inl (Getenv env "JWT_SECRET").
Proof.
  intros Hm. unfold keyFunc. rewrite Hm, GetSigningMethod_HS256.
  destruct (decide (Some jwt.HS256 ≠ Some jwt.HS256)) as [Hne|_];
    [exfalso; apply Hne; reflexivity | reflexivity].
Qed.

Lemma authorization_Bearer (w : World) (token : string) :
  contains_byte " " token = false ->
  Authorization w = "Bearer " +:+ token ->
  Split (Authorization w) " " !! 1%nat = Some token.
Proof. intros Hc ->. rewrite (Split_Bearer _ Hc). reflexivity. Qed.

Lemma issued_no_space (key : string) (claims : gmap string jwt.claim_value)
    (decoded : jwt.MyCustomClaims) (sig : string) :
  round_trip key claims decoded ->
  jwt.Sign jwt.HS256 (jwt.SigningString jwt.HS256 claims) key = inl sig ->
  contains_byte " " (Join [jwt.SigningString jwt.HS256 claims; sig] ".") = false.
Proof.
  intros [Hhs Hcs _ _ _ _ Hsig] Hsign.
  destruct (Hsig sig Hsign) as [Hss _].
  exact (proj2 (segment_Split3 _ _ _ Hhs Hcs Hss)).
Qed.

(** X3. Issue then parse: a token from [CreateToken], parsed with the
    key function of [authApi] under the same secret and no later than
    its expiry, comes back without error, marked valid, with the user
    id it was issued for and the expiry 15 minutes after issuance. *)
Theorem CreateToken_parses_back (issue check : Env) (userid : uint64) (token : string) :
  CreateToken issue userid = (token, None) ->
  round_trip (Getenv issue "JWT_SECRET") (issued_claims issue userid)
             (decoded_claims userid (Time_Unix (Time_Add (Now issue) (Minute * 15)%Z))) ->
  Getenv check "JWT_SECRET" = Getenv issue "JWT_SECRET" ->
  (Time_Unix (Now check) <= Time_Unix (Time_Add (Now issue) (Minute * 15)%Z))%Z ->
  exists t,
    jwt.ParseWithClaims token (keyFunc check) (Time_Unix (Now check)) = (Some t, None)
    /\ jwt.Valid t = true
    /\ jwt.Method t = Some jwt.HS256
    /\ jwt.UserId (jwt.Claims t) = userid
    /\ jwt.ExpiresAt (jwt.Standard (jwt.Claims t)) = (Time_Unix (Now issue) + 15 * 60)%Z.
Proof.
  intros Hissue Hrt Hkey Hexp.
  rewrite CreateToken_issued in Hissue.
  destruct (jwt.Sign _ _ _) as [sig|err] eqn:Hsign; [|discriminate].
  assert (Htok : token
                 = Join [jwt.SigningString jwt.HS256 (issued_claims issue userid); sig] ".")
    by (injection Hissue as Heq; exact (eq_sym Heq)).
  clear Hissue. subst token.
  pose proof (ParseUnverified_issued _ _ _ _ Hrt Hsign) as Hpu. cbv zeta in Hpu.
  destruct Hrt as [_ _ _ _ _ _ Hsig]. destruct (Hsig sig Hsign) as [_ Hver].
  unfold jwt.ParseWithClaims. rewrite Hpu.
  rewrite keyFunc_HS256 by reflexivity.
  cbn [jwt.Claims jwt.set_Method jwt.set_Claims jwt.set_Header jwt.new_Token
       jwt.Standard decoded_claims].
  unfold jwt.StandardClaims_Valid.
  cbn [jwt.ExpiresAt jwt.IssuedAt jwt.NotBefore].
  rewrite (verifyExp_before _ _ Hexp).
  cbn [negb jwt.verifyIat jwt.verifyNbf Z.eqb jwt.ValidationError_valid jwt.Errors N.eqb].
  unfold jwt.Method_Verify.
  cbn [jwt.Method jwt.set_Method jwt.set_Signature jwt.Signature nth firstn].
  unfold jwt.SigningString in Hver. rewrite Hkey, Hver.
  cbn [jwt.ValidationError_valid jwt.Errors N.eqb].
  eexists. split; [reflexivity|].
  split; [reflexivity|]. split; [reflexivity|]. split; [reflexivity|].
  cbn. apply Unix_after_15_minutes.
Qed.

End IssuedTokens.

(** User 1's token on the sample codec, parsed within the same second. *)
Lemma CreateToken_parses_back_witness :
  let token := "616c673a4853323536.75316531373030303030393030.m8495" in
  CreateToken Sample.env 1%N = (token, None) /\
  Getenv Sample.env "JWT_SECRET" = Getenv Sample.env "JWT_SECRET" /\
  (Time_Unix (Now Sample.env)
   <= Time_Unix (Time_Add (Now Sample.env) (Minute * 15)%Z))%Z /\
  exists t,
    jwt.ParseWithClaims token (keyFunc Sample.env) (Time_Unix (Now Sample.env))
    = (Some t, None)
    /\ jwt.Valid t = true
    /\ jwt.Method t = Some jwt.HS256
    /\ jwt.UserId (jwt.Claims t) = 1%N
    /\ jwt.ExpiresAt (jwt.Standard (jwt.Claims t))
       = (Time_Unix (Now Sample.env) + 15 * 60)%Z.
Proof.
  intros token.
  assert (Hissue : CreateToken Sample.env 1%N = (token, None)) by reflexivity.
  assert (Hexp : (Time_Unix (Now Sample.env)
                  <= Time_Unix (Time_Add (Now Sample.env) (Minute * 15)%Z))%Z)
    by (vm_compute; discriminate).
  split; [exact Hissue|]. split; [reflexivity|]. split; [exact Hexp|].
  exact (CreateToken_parses_back Sample.env Sample.env 1%N token
           Hissue Sample_round_trip eq_refl Hexp).
Defined.

Section IssuedTokensRejected.
Context {codec : jwt.Codec}.

(** The whole parse of an issued token, up to the two checks that depend
    on the validating side: the clock and the secret. *)
Lemma ParseWithClaims_issued (check : Env) (key : string)
    (claims : gmap string jwt.claim_value) (userid : uint64) (exp : Z) (sig : string)
    (now : Z) :
  round_trip key claims (decoded_claims userid exp) ->
  jwt.Sign jwt.HS256 (jwt.SigningString jwt.HS256 claims) key = inl sig ->
  let token := Join [jwt.SigningString jwt.HS256 claims; sig] "." in
  let tok := jwt.set_Signature sig
               (jwt.set_Method jwt.HS256
                  (jwt.set_Claims (decoded_claims userid exp)
                     (jwt.set_Header (jwt.NewWithClaims_Header jwt.HS256)
                        (jwt.new_Token token)))) in
  let vErr :=
    match jwt.StandardClaims_Valid (jwt.Standard (decoded_claims userid exp)) now with
    | Some e => e
    | None => {| jwt.Inner := None; jwt.Errors := 0; jwt.text := "" |}
    end in
  let vErr :=
    match jwt.Verify jwt.HS256 (jwt.SigningString jwt.HS256 claims) sig
                     (Getenv check "JWT_SECRET") with
    | Some err =>
        {| jwt.Inner := Some err;
           jwt.Errors := N.lor (jwt.Errors vErr) jwt.ValidationErrorSignatureInvalid;
           jwt.text := jwt.text vErr |}
    | None => vErr
    end in
  jwt.ParseWithClaims token (keyFunc check) now =
    if jwt.ValidationError_valid vErr then (Some (jwt.set_Valid true tok), None)
    else (Some tok, Some vErr).
Proof.
  intros Hrt Hsign token tok vErr vErr'.
  pose proof (ParseUnverified_issued _ _ _ _ Hrt Hsign) as Hpu. cbv zeta in Hpu.
  unfold jwt.ParseWithClaims. fold token in Hpu. rewrite Hpu.
  rewrite keyFunc_HS256 by reflexivity.
  reflexivity.
Qed.

Lemma verifyExp_after (exp now : Z) :
  exp <> 0%Z -> (exp < now)%Z -> jwt.verifyExp exp now false = false.
Proof.
  intros Hnz Hlt. unfold jwt.verifyExp.
  destruct (Z.eqb_spec exp 0); [contradiction|]. apply Z.leb_gt. exact Hlt.
Qed.

(** X4. A token from [CreateToken] presented after its expiry (same
    secret): [authApi] answers 401, the error text says by how long the
    token is expired, and the token it returns is not marked valid. *)
Theorem authApi_rejects_expired_token (issue check : Env) (w : World)
    (userid : uint64) (token : string) :
  let exp := Time_Unix (Time_Add (Now issue) (Minute * 15)%Z) in
  CreateToken issue userid = (token, None) ->
  round_trip (Getenv issue "JWT_SECRET") (issued_claims issue userid)
             (decoded_claims userid exp) ->
  Getenv check "JWT_SECRET" = Getenv issue "JWT_SECRET" ->
  exp <> 0%Z ->
  (exp < Time_Unix (Now check))%Z ->
  Authorization w = "Bearer " +:+ token ->
  exists t,
    authApi check w =
      (Returned (Some t),
       {| ctx := Context_JSON 401
                   (unauthorized_body
                      ("token is expired by " +:+
                       jwt.FormatDuration ((Time_Unix (Now check) - exp) * Second)%Z))
                   (ctx w);
          db := db w |})
    /\ jwt.Valid t = false.
Proof.
  intros exp Hissue Hrt Hkey Hnz Hlt Hhdr.
  rewrite CreateToken_issued in Hissue.
  destruct (jwt.Sign _ _ _) as [sig|err] eqn:Hsign; [|discriminate].
  assert (Htok : token
                 = Join [jwt.SigningString jwt.HS256 (issued_claims issue userid); sig] ".")
    by (injection Hissue as Heq; exact (eq_sym Heq)).
  clear Hissue. subst token.
  pose proof (issued_no_space _ _ _ _ Hrt Hsign) as Hnosp.
  pose proof (authorization_Bearer w _ Hnosp Hhdr) as Hidx.
  pose proof (ParseWithClaims_issued check _ _ _ _ _ (Time_Unix (Now check)) Hrt Hsign)
    as Hparse.
  cbv zeta in Hparse.
  destruct Hrt as [_ _ _ _ _ _ Hsig]. destruct (Hsig sig Hsign) as [_ Hver].
  rewrite Hkey, Hver in Hparse.
  unfold jwt.StandardClaims_Valid in Hparse.
  cbn [jwt.ExpiresAt jwt.IssuedAt jwt.NotBefore jwt.Standard decoded_claims] in Hparse.
  fold exp in Hparse.
  rewrite (verifyExp_after _ _ Hnz Hlt) in Hparse.
  cbn [negb jwt.verifyIat jwt.verifyNbf Z.eqb jwt.ValidationError_valid jwt.Errors
       jwt.text N.eqb N.lor jwt.ValidationErrorExpired Pos.lor] in Hparse.
  eexists. split.
  - rewrite (authApi_rejects check w _ _ _ Hidx Hparse). reflexivity.
  - reflexivity.
Qed.

(** X5. A token from [CreateToken] presented to a server whose secret
    does not verify its signature: [authApi] answers 401 with the text
    of the verification error, and the token it returns is not marked
    valid. *)
Theorem authApi_rejects_foreign_secret (issue check : Env) (w : World)
    (userid : uint64) (token reason : string) :
  let exp := Time_Unix (Time_Add (Now issue) (Minute * 15)%Z) in
  CreateToken issue userid = (token, None) ->
  round_trip (Getenv issue "JWT_SECRET") (issued_claims issue userid)
             (decoded_claims userid exp) ->
  (forall sig,
     jwt.Sign jwt.HS256 (jwt.SigningString jwt.HS256 (issued_claims issue userid))
              (Getenv issue "JWT_SECRET") = inl sig ->
     jwt.Verify jwt.HS256 (jwt.SigningString jwt.HS256 (issued_claims issue userid)) sig
                (Getenv check "JWT_SECRET") = Some reason) ->
  Authorization w = "Bearer " +:+ token ->
  exists t,
    authApi check w =
      (Returned (Some t),
       {| ctx := Context_JSON 401 (unauthorized_body reason) (ctx w); db := db w |})
    /\ jwt.Valid t = false.
Proof.
  intros exp Hissue Hrt Hforeign Hhdr.
  rewrite CreateToken_issued in Hissue.
  destruct (jwt.Sign _ _ _) as [sig|err] eqn:Hsign; [|discriminate].
  assert (Htok : token
                 = Join [jwt.SigningString jwt.HS256 (issued_claims issue userid); sig] ".")
    by (injection Hissue as Heq; exact (eq_sym Heq)).
  clear Hissue. subst token.
  pose proof (issued_no_space _ _ _ _ Hrt Hsign) as Hnosp.
  pose proof (authorization_Bearer w _ Hnosp Hhdr) as Hidx.
  pose proof (ParseWithClaims_issued check _ _ _ _ _ (Time_Unix (Now check)) Hrt Hsign)
    as Hparse.
  cbv zeta in Hparse.
  rewrite (Hforeign sig eq_refl) in Hparse.
  assert (Hinvalid : forall e : jwt.ValidationError,
    jwt.ValidationError_valid
      {| jwt.Inner := Some reason;
         jwt.Errors := N.lor (jwt.Errors e) jwt.ValidationErrorSignatureInvalid;
         jwt.text := jwt.text e |} = false).
  { intros e. unfold jwt.ValidationError_valid. cbn [jwt.Errors].
    apply N.eqb_neq. intros Hz. apply N.lor_eq_0_iff in Hz as [_ Hz]. discriminate. }
  rewrite Hinvalid in Hparse.
  eexists. split.
  - rewrite (authApi_rejects check w _ _ _ Hidx Hparse). reflexivity.
  - reflexivity.
Qed.

End IssuedTokensRejected.

(** User 1's token, presented sixteen minutes after it was issued. *)
Lemma authApi_rejects_expired_token_witness :
  let token := "616c673a4853323536.75316531373030303030393030.m8495" in
  let late := {| Getenv := Getenv Sample.env;
                 Now := Time_Add (Now Sample.env) (Minute * 16)%Z |} in
  let w := request_with ("Bearer " +:+ token) ∅ None Sample.store in
  let exp := Time_Unix (Time_Add (Now Sample.env) (Minute * 15)%Z) in
  CreateToken Sample.env 1%N = (token, None) /\
  Getenv late "JWT_SECRET" = Getenv Sample.env "JWT_SECRET" /\
  exp <> 0%Z /\
  (exp < Time_Unix (Now late))%Z /\
  Authorization w = "Bearer " +:+ token /\
  exists t,
    authApi late w =
      (Returned (Some t),
       {| ctx := Context_JSON 401
                   (unauthorized_body
                      ("token is expired by " +:+
                       jwt.FormatDuration ((Time_Unix (Now late) - exp) * Second)%Z))
                   (ctx w);
          db := db w |})
    /\ jwt.Valid t = false.
Proof.
  intros token late w exp.
  assert (Hissue : CreateToken Sample.env 1%N = (token, None)) by reflexivity.
  assert (Hnz : exp <> 0%Z) by (vm_compute; discriminate).
  assert (Hlt : (exp < Time_Unix (Now late))%Z) by (vm_compute; reflexivity).
  split; [exact Hissue|]. split; [reflexivity|]. split; [exact Hnz|].
  split; [exact Hlt|]. split; [reflexivity|].
  exact (authApi_rejects_expired_token Sample.env late w 1%N token
           Hissue Sample_round_trip eq_refl Hnz Hlt eq_refl).
Defined.

(** User 1's token, presented to a server with another secret. *)
Lemma authApi_rejects_foreign_secret_witness :
  let token := "616c673a4853323536.75316531373030303030393030.m8495" in
  let other := Sample.env_with "another secret" in
  let w := request_with ("Bearer " +:+ token) ∅ None Sample.store in
  CreateToken Sample.env 1%N = (token, None) /\
  Authorization w = "Bearer " +:+ token /\
  exists t,
    authApi other w =
      (Returned (Some t),
       {| ctx := Context_JSON 401 (unauthorized_body "signature is invalid") (ctx w);
          db := db w |})
    /\ jwt.Valid t = false.
Proof.
  intros token other w.
  assert (Hissue : CreateToken Sample.env 1%N = (token, None)) by reflexivity.
  assert (Hforeign : forall sig,
    jwt.Sign jwt.HS256 (jwt.SigningString jwt.HS256 (issued_claims Sample.env 1%N))
             (Getenv Sample.env "JWT_SECRET") = inl sig ->
    jwt.Verify jwt.HS256 (jwt.SigningString jwt.HS256 (issued_claims Sample.env 1%N)) sig
               (Getenv other "JWT_SECRET") = Some "signature is invalid").
  { intros sig Hsign. vm_compute in Hsign. injection Hsign as <-. reflexivity. }
  split; [exact Hissue|]. split; [reflexivity|].
  exact (authApi_rejects_foreign_secret Sample.env other w 1%N token
           "signature is invalid" Hissue Sample_round_trip Hforeign eq_refl).
Defined.

(** ** [unfollowProfile] as a whole *)

Section UnfollowWhole.
Context {codec : jwt.Codec}.
Variable env : Env.

(** X6. [unfollowProfile] never deletes: whatever the request and
    however the handler ends, the store afterwards is the store before,
    so every follow pair that existed still exists. *)
Theorem unfollowProfile_never_deletes (w : World) :
  db (snd (unfollowProfile env w)) = db w
  /\ forall a b,
       Follow_exists (db (snd (unfollowProfile env w))) a b = Follow_exists (db w) a b.
Proof.
  assert (Hdb : db (snd (unfollowProfile env w)) = db w).
  { destruct (authApi_cases env w) as [Hp|[Hp|(tok & e & Hr & _)]].
    - rewrite (unfollowProfile_panics env w w _ Hp). reflexivity.
    - rewrite (unfollowProfile_panics env w w _ Hp). reflexivity.
    - rewrite (unfollowProfile_returns env w _ tok Hr). reflexivity. }
  split; [exact Hdb|]. intros a b. rewrite Hdb. reflexivity.
Qed.

(** X7. What a client can get from [unfollowProfile] on a fresh request:
    either the handler panics before anything is written, or the status
    line sent is 401 and the body is three documents -- the rejection of
    [authApi], the token, and the [Unathorized] error -- with the
    context aborted.  No request is answered with a success status. *)
Theorem unfollowProfile_outcomes (header params : gmap string string)
    (body : option LoginRequest) (d : DB) :
  let w := {| ctx := new_Context header params body; db := d |} in
  (exists p, unfollowProfile env w = (Panicked p, w))
  \/ exists w' tok e,
       unfollowProfile env w = (Returned tt, w')
       /\ Writer_sent (ctx w') = Some 401%Z
       /\ Writer_body (ctx w') =
            [unauthorized_body (jwt.ValidationError_Error e);
             <["token" := VToken tok]> ∅;
             unathorized_error]
       /\ aborted (ctx w') = true.
Proof.
  intros w.
  destruct (authApi_cases env w) as [Hp|[Hp|(tok & e & Hr & _)]].
  - left. eexists. exact (unfollowProfile_panics env w w _ Hp).
  - left. eexists. exact (unfollowProfile_panics env w w _ Hp).
  - right. eexists _, tok, e.
    split; [exact (unfollowProfile_returns env w _ tok Hr)|]. repeat split.
Qed.

(** X8. Issue, then unfollow: with the token [CreateToken] issued (same
    secret, before expiry) in the [Authorization] header,
    [unfollowProfile] panics with a nil dereference; nothing is written
    to the client and the follow pairs are as before. *)
Theorem unfollowProfile_panics_on_issued_token (issue : Env) (w : World)
    (userid : uint64) (token : string) :
  CreateToken issue userid = (token, None) ->
  round_trip (Getenv issue "JWT_SECRET") (issued_claims issue userid)
             (decoded_claims userid (Time_Unix (Time_Add (Now issue) (Minute * 15)%Z))) ->
  Getenv env "JWT_SECRET" = Getenv issue "JWT_SECRET" ->
  (Time_Unix (Now env) <= Time_Unix (Time_Add (Now issue) (Minute * 15)%Z))%Z ->
  Authorization w = "Bearer " +:+ token ->
  unfollowProfile env w = (Panicked NilDereference, w).
Proof.
  intros Hissue Hrt Hkey Hexp Hhdr.
  rewrite CreateToken_issued in Hissue.
  destruct (jwt.Sign _ _ _) as [sig|err] eqn:Hsign; [|discriminate].
  assert (Htok : token
                 = Join [jwt.SigningString jwt.HS256 (issued_claims issue userid); sig] ".")
    by (injection Hissue as Heq; exact (eq_sym Heq)).
  clear Hissue. subst token.
  pose proof (issued_no_space _ _ _ _ Hrt Hsign) as Hnosp.
  pose proof (authorization_Bearer w _ Hnosp Hhdr) as Hidx.
  destruct (ParseWithClaims_fresh env _ _ _ _ _ Hrt Hsign Hkey Hexp)
    as (t & Hparse & _ & _).
  apply unfollowProfile_panics.
  apply (authApi_nil_error env w _ Hidx). rewrite Hparse. reflexivity.
Qed.

End UnfollowWhole.

(** Alice (1) follows bob (2) and asks to unfollow him with her token. *)
Lemma unfollowProfile_panics_on_issued_token_witness :
  let token := "616c673a4853323536.75316531373030303030393030.m8495" in
  let w := request_with ("Bearer " +:+ token) (<["username" := "bob"]> ∅) None
                        Sample.store in
  CreateToken Sample.env 1%N = (token, None) /\
  Getenv Sample.env "JWT_SECRET" = Getenv Sample.env "JWT_SECRET" /\
  (Time_Unix (Now Sample.env)
   <= Time_Unix (Time_Add (Now Sample.env) (Minute * 15)%Z))%Z /\
  Authorization w = "Bearer " +:+ token /\
  unfollowProfile Sample.env w = (Panicked NilDereference, w).
Proof.
  intros token w.
  assert (Hissue : CreateToken Sample.env 1%N = (token, None)) by reflexivity.
  assert (Hexp : (Time_Unix (Now Sample.env)
                  <= Time_Unix (Time_Add (Now Sample.env) (Minute * 15)%Z))%Z)
    by (vm_compute; discriminate).
  split; [exact Hissue|]. split; [reflexivity|]. split; [exact Hexp|].
  split; [reflexivity|].
  exact (unfollowProfile_panics_on_issued_token Sample.env Sample.env w 1%N token
           Hissue Sample_round_trip eq_refl Hexp eq_refl).
Defined.

(** ** [loginUser] as a whole *)

Section LoginWhole.
Context {codec : jwt.Codec} {bcrypt : Bcrypt}.
Variable env : Env.

(** The context after the password check of [loginUser]. *)
Lemma loginUser_run (w : World) (r : LoginRequest) :
  Request_Body (ctx w) = Some r ->
  let user := user_by_email (db w) (LoginUser_Email (LoginRequest_Data r)) in
  let checked :=
    match CompareHashAndPassword (User_Password user)
                                 (LoginUser_Password (LoginRequest_Data r)) with
    | Some _ => Context_JSON 401 wrong_password_body (ctx w)
    | None => ctx w
    end in
  loginUser env w =
    match CreateToken env (User_ID user) with
    | (_, Some _) => (Panicked (PanicValue "Server error"), {| ctx := checked; db := db w |})
    | (token, None) =>
        (Returned tt, {| ctx := Context_JSON 200 (user_body user token) checked; db := db w |})
    end.
Proof.
  intros Hbody user checked.
  unfold loginUser, mbind, Handler_bind, c_BindJSON. rewrite Hbody.
  unfold gorm.First_User, read_db.
  fold (user_by_email (db w) (LoginUser_Email (LoginRequest_Data r))). fold user.
  unfold checked.
  destruct (CompareHashAndPassword _ _) as [reason|];
    cbn [c_JSON on_ctx ctx db mret Handler_ret];
    destruct (CreateToken env (User_ID user)) as [token [err|]];
    destruct w; reflexivity.
Qed.

Lemma loginUser_no_body (w : World) :
  Request_Body (ctx w) = None ->
  loginUser env w =
    (Panicked (PanicValue "Wrong data"),
     {| ctx := Context_AbortWithStatus 400 (ctx w); db := db w |}).
Proof.
  intros Hbody. unfold loginUser, mbind, Handler_bind, c_BindJSON.
  rewrite Hbody. reflexivity.
Qed.

(** X9. A login whose body does not bind: the context is aborted with
    status 400 and no body, and the handler panics with [Wrong data];
    the store is not read or changed and no token is issued. *)
Theorem loginUser_unbound_body_panics (header params : gmap string string) (d : DB) :
  let w := {| ctx := new_Context header params None; db := d |} in
  exists w',
    loginUser env w = (Panicked (PanicValue "Wrong data"), w')
    /\ Writer_sent (ctx w') = Some 400%Z
    /\ Writer_body (ctx w') = []
    /\ aborted (ctx w') = true
    /\ db w' = d.
Proof.
  intros w. eexists. split; [apply loginUser_no_body; reflexivity|]. repeat split.
Qed.

(** X10. A login that passes the password check and whose token is
    signed: on a fresh request the status line is 200 and the body is
    exactly one document, the user resource of the row with that email
    carrying the issued token. *)
Theorem loginUser_success (header params : gmap string string) (d : DB)
    (r : LoginRequest) (token : string) :
  let w := {| ctx := new_Context header params (Some r); db := d |} in
  let user := user_by_email d (LoginUser_Email (LoginRequest_Data r)) in
  CompareHashAndPassword (User_Password user)
                         (LoginUser_Password (LoginRequest_Data r)) = None ->
  CreateToken env (User_ID user) = (token, None) ->
  exists w',
    loginUser env w = (Returned tt, w')
    /\ Writer_sent (ctx w') = Some 200%Z
    /\ Writer_body (ctx w') = [user_body user token]
    /\ aborted (ctx w') = false
    /\ db w' = d.
Proof.
  intros w user Hcheck Hissue.
  pose proof (loginUser_run w r eq_refl) as Hrun. cbv zeta in Hrun.
  change (db w) with d in Hrun. fold user in Hrun.
  rewrite Hcheck, Hissue in Hrun.
  eexists. split; [exact Hrun|]. repeat split.
Qed.

Lemma user_by_email_unknown (d : DB) (email : string) :
  (forall u, In u (users d) -> User_Email u <> email) ->
  user_by_email d email = User_zero.
Proof.
  intros Hnone. unfold user_by_email.
  replace (List.filter (fun u => String.eqb (User_Email u) email) (users d)) with (@nil User);
    [reflexivity|].
  symmetry. induction (users d) as [|u us IH]; [reflexivity|].
  simpl. destruct (String.eqb_spec (User_Email u) email) as [Heq|_].
  - exfalso. apply (Hnone u); [left; reflexivity | exact Heq].
  - apply IH. intros v Hv. apply Hnone. right. exact Hv.
Qed.

(** X11. A login for an email no row has: the handler works on the zero
    user.  When the comparison with its empty hash fails and signing
    succeeds, the status line is 401, and the body is the
    wrong-password document followed by a user resource with empty
    fields and a token issued for user id 0. *)
Theorem loginUser_unknown_email (header params : gmap string string) (d : DB)
    (r : LoginRequest) (reason token : string) :
  let w := {| ctx := new_Context header params (Some r); db := d |} in
  (forall u, In u (users d) -> User_Email u <> LoginUser_Email (LoginRequest_Data r)) ->
  CompareHashAndPassword "" (LoginUser_Password (LoginRequest_Data r)) = Some reason ->
  CreateToken env 0%N = (token, None) ->
  exists w',
    loginUser env w = (Returned tt, w')
    /\ Writer_sent (ctx w') = Some 401%Z
    /\ Writer_body (ctx w') =
         [wrong_password_body;
          <["user" := VUserResource
              {| UserResource_Username := ""; UserResource_Email := "";
                 UserResource_Bio := ""; UserResource_Image := "";
                 UserResource_Token := token |}]> ∅].
Proof.
  intros w Hnone Hcheck Hissue.
  pose proof (loginUser_run w r eq_refl) as Hrun. cbv zeta in Hrun.
  change (db w) with d in Hrun.
  rewrite (user_by_email_unknown d _ Hnone) in Hrun.
  cbn [User_Password User_ID User_zero] in Hrun.
  rewrite Hcheck, Hissue in Hrun.
  eexists. split; [exact Hrun|]. repeat split.
Qed.

(** X12. [loginUser] never writes to the store: whatever the request and
    however the handler ends, the store afterwards is the store
    before. *)
Theorem loginUser_store_unchanged (w : World) :
  db (snd (loginUser env w)) = db w.
Proof.
  destruct (Request_Body (ctx w)) as [r|] eqn:Hbody.
  - pose proof (loginUser_run w r Hbody) as Hrun. cbv zeta in Hrun. rewrite Hrun.
    destruct (CreateToken env _) as [token [err|]]; reflexivity.
  - rewrite (loginUser_no_body w Hbody). reflexivity.
Qed.

End LoginWhole.

(** Alice logs in with her password. *)
Lemma loginUser_success_witness :
  let r := {| LoginRequest_Data :=
                {| LoginUser_Email := "alice@example.com";
                   LoginUser_Password := "wonderland" |} |} in
  let w := {| ctx := new_Context ∅ ∅ (Some r); db := Sample.store |} in
  let token := "616c673a4853323536.75316531373030303030393030.m8495" in
  CompareHashAndPassword (User_Password Sample.alice) "wonderland" = None /\
  CreateToken Sample.env 1%N = (token, None) /\
  exists w',
    loginUser Sample.env w = (Returned tt, w')
    /\ Writer_sent (ctx w') = Some 200%Z
    /\ Writer_body (ctx w') = [user_body Sample.alice token]
    /\ aborted (ctx w') = false
    /\ db w' = Sample.store.
Proof.
  intros r w token.
  assert (Hcheck : CompareHashAndPassword (User_Password Sample.alice) "wonderland" = None)
    by reflexivity.
  assert (Hissue : CreateToken Sample.env 1%N = (token, None)) by reflexivity.
  split; [exact Hcheck|]. split; [exact Hissue|].
  exact (loginUser_success Sample.env ∅ ∅ Sample.store r token Hcheck Hissue).
Defined.

(** A login for an email that is not in the store. *)
Lemma loginUser_unknown_email_witness :
  let r := {| LoginRequest_Data :=
                {| LoginUser_Email := "nobody@example.com";
                   LoginUser_Password := "guess" |} |} in
  let w := {| ctx := new_Context ∅ ∅ (Some r); db := Sample.store |} in
  let token := fst (CreateToken Sample.env 0%N) in
  (forall u, In u (users Sample.store) -> User_Email u <> "nobody@example.com") /\
  CompareHashAndPassword "" "guess"
  = Some "crypto/bcrypt: hashedSecret too short to be a bcrypted password" /\
  CreateToken Sample.env 0%N = (token, None) /\
  exists w',
    loginUser Sample.env w = (Returned tt, w')
    /\ Writer_sent (ctx w') = Some 401%Z
    /\ Writer_body (ctx w') =
         [wrong_password_body;
          <["user" := VUserResource
              {| UserResource_Username := ""; UserResource_Email := "";
                 UserResource_Bio := ""; UserResource_Image := "";
                 UserResource_Token := token |}]> ∅].
Proof.
  intros r w token.
  assert (Hnone : forall u, In u (users Sample.store) ->
                            User_Email u <> "nobody@example.com").
  { intros u [<-|[<-|[]]]; discriminate. }
  assert (Hcheck : CompareHashAndPassword "" "guess"
            = Some "crypto/bcrypt: hashedSecret too short to be a bcrypted password")
    by reflexivity.
  assert (Hissue : CreateToken Sample.env 0%N = (token, None)) by reflexivity.
  split; [exact Hnone|]. split; [exact Hcheck|]. split; [exact Hissue|].
  exact (loginUser_unknown_email Sample.env ∅ ∅ Sample.store r _ token
           Hnone Hcheck Hissue).
Defined.

(** ** Reading rows by key *)

Section FirstRow.

Lemma least_ID_fold_Some (l : list User) (b : User) :
  exists x, fold_left gorm.least_ID l (Some b) = Some x
            /\ (x = b \/ In x l)
            /\ (User_ID x <= User_ID b)%N
            /\ forall v, In v l -> (User_ID x <= User_ID v)%N.
Proof.
  revert b. induction l as [|u l IH]; intros b; simpl.
  - exists b. split; [reflexivity|]. split; [left; reflexivity|].
    split; [lia|]. intros v [].
  - destruct (N.ltb_spec (User_ID u) (User_ID b)) as [Hlt|Hge].
    + destruct (IH u) as (x & Hx & Hin & Hle & Hmin). exists x.
      split; [exact Hx|]. split; [right; destruct Hin as [->|Hin]; [left|right]; auto|].
      split; [lia|]. intros v [<-|Hv]; [exact Hle | exact (Hmin v Hv)].
    + destruct (IH b) as (x & Hx & Hin & Hle & Hmin). exists x.
      split; [exact Hx|]. split; [destruct Hin as [->|Hin]; [left|right; right]; auto|].
      split; [exact Hle|]. intros v [<-|Hv]; [lia | exact (Hmin v Hv)].
Qed.

(** The row [First] picks: one of the matching rows, with the least id. *)
Lemma user_by_username_found (d : DB) (name : string) :
  (exists u, In u (users d) /\ User_Username u = name) ->
  In (user_by_username d name) (users d)
  /\ User_Username (user_by_username d name) = name
  /\ forall v, In v (users d) -> User_Username v = name ->
               (User_ID (user_by_username d name) <= User_ID v)%N.
Proof.
  intros (u & Hu & Hname). unfold user_by_username.
  set (p := fun u : User => String.eqb (User_Username u) name).
  assert (Hfu : In u (List.filter p (users d))).
  { apply List.filter_In. split; [exact Hu|]. unfold p. apply String.eqb_eq. exact Hname. }
  destruct (List.filter p (users d)) as [|b l] eqn:Hf; [destruct Hfu|].
  simpl fold_left.
  destruct (least_ID_fold_Some l b) as (x & Hx & Hin & Hle & Hmin).
  rewrite Hx. simpl default.
  assert (Hxf : In x (List.filter p (users d))).
  { rewrite Hf. destruct Hin as [->|Hin]; [left; reflexivity | right; exact Hin]. }
  apply List.filter_In in Hxf as [Hxu Hpx].
  split; [exact Hxu|]. split; [apply String.eqb_eq; exact Hpx|].
  intros v Hv Hvn.
  assert (Hvf : In v (List.filter p (users d))).
  { apply List.filter_In. split; [exact Hv|]. unfold p. apply String.eqb_eq. exact Hvn. }
  rewrite Hf in Hvf. destruct Hvf as [<-|Hvl]; [exact Hle | exact (Hmin v Hvl)].
Qed.

Lemma user_by_username_unknown (d : DB) (name : string) :
  (forall u, In u (users d) -> User_Username u <> name) ->
  user_by_username d name = User_zero.
Proof.
  intros Hnone. unfold user_by_username.
  replace (List.filter (fun u => String.eqb (User_Username u) name) (users d))
    with (@nil User); [reflexivity|].
  symmetry. induction (users d) as [|u us IH]; [reflexivity|].
  simpl. destruct (String.eqb_spec (User_Username u) name) as [Heq|_].
  - exfalso. apply (Hnone u); [left; reflexivity | exact Heq].
  - apply IH. intros v Hv. apply Hnone. right. exact Hv.
Qed.

(** X13. [showProfile] for a username some row has: the profile written
    is that of a stored user with exactly that username -- the one with
    the least id if several rows share it. *)
Theorem showProfile_existing_user (w : World) (name : string) :
  Params (ctx w) !! "username" = Some name ->
  (exists u, In u (users (db w)) /\ User_Username u = name) ->
  exists u,
    In u (users (db w))
    /\ User_Username u = name
    /\ (forall v, In v (users (db w)) -> User_Username v = name ->
                  (User_ID u <= User_ID v)%N)
    /\ showProfile w =
         (Returned tt,
          {| ctx := Context_JSON 200
                      (<["profile" := VProfile
                           {| Profile_Username := name; Profile_Bio := User_Bio u;
                              Profile_Image := User_Image u;
                              Profile_Following := false |}]> ∅)
                      (ctx w);
             db := db w |}).
Proof.
  intros Hparam Hex.
  destruct (user_by_username_found (db w) name Hex) as (Hin & Hname & Hmin).
  exists (user_by_username (db w) name).
  split; [exact Hin|]. split; [exact Hname|]. split; [exact Hmin|].
  unfold showProfile, mbind, Handler_bind, c_Param, read_ctx, gorm.First_User, read_db.
  rewrite Hparam. simpl default.
  fold (user_by_username (db w) name). rewrite Hname. reflexivity.
Qed.

(** X14. [showProfile] for a username no row has (or with no username
    parameter at all): the answer is still 200, with a profile whose
    fields are all empty. *)
Theorem showProfile_unknown_user (w : World) :
  (forall u, In u (users (db w)) ->
             User_Username u <> default "" (Params (ctx w) !! "username")) ->
  showProfile w =
    (Returned tt,
     {| ctx := Context_JSON 200
                 (<["profile" := VProfile
                      {| Profile_Username := ""; Profile_Bio := ""; Profile_Image := "";
                         Profile_Following := false |}]> ∅)
                 (ctx w);
        db := db w |}).
Proof.
  intros Hnone.
  unfold showProfile, mbind, Handler_bind, c_Param, read_ctx, gorm.First_User, read_db.
  fold (user_by_username (db w) (default "" (Params (ctx w) !! "username"))).
  rewrite (user_by_username_unknown _ _ Hnone). reflexivity.
Qed.

End FirstRow.

(** Bob's profile, asked for by name. *)
Lemma showProfile_existing_user_witness :
  let w := {| ctx := new_Context ∅ (<["username" := "bob"]> ∅) None;
              db := Sample.store |} in
  Params (ctx w) !! "username" = Some "bob" /\
  (exists u, In u (users (db w)) /\ User_Username u = "bob") /\
  exists u,
    In u (users (db w))
    /\ User_Username u = "bob"
    /\ (forall v, In v (users (db w)) -> User_Username v = "bob" ->
                  (User_ID u <= User_ID v)%N)
    /\ showProfile w =
         (Returned tt,
          {| ctx := Context_JSON 200
                      (<["profile" := VProfile
                           {| Profile_Username := "bob"; Profile_Bio := User_Bio u;
                              Profile_Image := User_Image u;
                              Profile_Following := false |}]> ∅)
                      (ctx w);
             db := db w |}).
Proof.
  intros w.
  assert (Hparam : Params (ctx w) !! "username" = Some "bob") by reflexivity.
  assert (Hex : exists u, In u (users (db w)) /\ User_Username u = "bob").
  { exists Sample.bob. split; [right; left; reflexivity | reflexivity]. }
  split; [exact Hparam|]. split; [exact Hex|].
  exact (showProfile_existing_user w "bob" Hparam Hex).
Defined.

(** A profile asked for under a name nobody has. *)
Lemma showProfile_unknown_user_witness :
  let w := {| ctx := new_Context ∅ (<["username" := "carol"]> ∅) None;
              db := Sample.store |} in
  (forall u, In u (users (db w)) ->
             User_Username u <> default "" (Params (ctx w) !! "username")) /\
  showProfile w =
    (Returned tt,
     {| ctx := Context_JSON 200
                 (<["profile" := VProfile
                      {| Profile_Username := ""; Profile_Bio := ""; Profile_Image := "";
                         Profile_Following := false |}]> ∅)
                 (ctx w);
        db := db w |}).
Proof.
  intros w.
  assert (Hnone : forall u, In u (users (db w)) ->
                            User_Username u <> default "" (Params (ctx w) !! "username")).
  { intros u [<-|[<-|[]]]; vm_compute; discriminate. }
  split; [exact Hnone|].
  exact (showProfile_unknown_user w Hnone).
Defined.

(** ** Articles *)

Section ArticlesWhole.
Variable Format_RFC3339 : Time -> string.

Lemma tag_names_map (ts : list Tag) : tag_names ts = List.map Tag_Name ts.
Proof. unfold tag_names. rewrite append_each. reflexivity. Qed.

(** X15. [getArticles] writes one resource per stored article, in the
    order of the query: titles and tag names are those of the rows, tag
    names in the order of the tags.  Fields the loop does not copy never
    reach the client: every resource has an empty slug, [favorited]
    false and [favoritesCount] 0. *)
Theorem getArticles_resources (w : World) :
  let rows := List.map (gorm.preload (db w)) (articles (db w)) in
  exists coll : list ArticleResource,
    getArticles Format_RFC3339 w =
      (Returned tt,
       {| ctx := Context_JSON 200
                   (<["articles" := VArticleResources coll]>
                      (<["articlesCount" := VInt (Z.of_nat (length rows))]> ∅))
                   (ctx w);
          db := db w |})
    /\ List.map ArticleResource_Title coll = List.map Article_Title (articles (db w))
    /\ List.map ArticleResource_Tags coll
       = List.map (fun a => List.map Tag_Name (Article_Tags a)) rows
    /\ Forall (fun r => ArticleResource_Slug r = ""
                        /\ ArticleResource_Favorited r = false
                        /\ ArticleResource_FavoritesCount r = 0%N) coll.
Proof.
  intros rows.
  exists (List.map (to_resource Format_RFC3339) rows).
  split.
  - unfold getArticles, mbind, Handler_bind, gorm.Find_Articles, read_db.
    fold rows. rewrite append_each. reflexivity.
  - split; [|split].
    + unfold rows. rewrite !List.map_map. reflexivity.
    + rewrite List.map_map. apply List.map_ext. intros a.
      cbn [ArticleResource_Tags to_resource]. apply tag_names_map.
    + apply List.Forall_forall. intros r Hr. apply List.in_map_iff in Hr as (a & <- & _).
      repeat split.
Qed.

End ArticlesWhole.

Section ShowArticle.

Lemma least_Article_ID_fold_Some (l : list Article) (b : Article) :
  exists x, fold_left least_Article_ID l (Some b) = Some x /\ (x = b \/ In x l).
Proof.
  revert b. induction l as [|u l IH]; intros b; simpl.
  - exists b. split; [reflexivity | left; reflexivity].
  - destruct (Article_ID u <? Article_ID b)%N.
    + destruct (IH u) as (x & Hx & Hin). exists x. split; [exact Hx|].
      right. destruct Hin as [->|Hin]; [left | right]; auto.
    + destruct (IH b) as (x & Hx & Hin). exists x. split; [exact Hx|].
      destruct Hin as [->|Hin]; [left | right; right]; auto.
Qed.

(** X16. [showArticle] for a slug no article has: the answer is still
    200, and the article written is the zero value (empty title, body
    and slug, no tags). *)
Theorem showArticle_unknown_slug (w : World) :
  (forall a, In a (articles (db w)) ->
             Article_Slug a <> default "" (Params (ctx w) !! "slug")) ->
  showArticle w =
    (Returned tt,
     {| ctx := Context_JSON 200 (<["article" := VArticle Article_zero]> ∅) (ctx w);
        db := db w |}).
Proof.
  intros Hnone.
  unfold showArticle, mbind, Handler_bind, c_Param, read_ctx, First_Article_by_slug, read_db.
  cbn [ctx db].
  replace (List.filter _ (articles (db w))) with (@nil Article); [reflexivity|].
  symmetry. induction (articles (db w)) as [|a l IH]; [reflexivity|].
  simpl. destruct (String.eqb_spec (Article_Slug a) (default "" (Params (ctx w) !! "slug")))
    as [Heq|_].
  - exfalso. apply (Hnone a); [left; reflexivity | exact Heq].
  - apply IH. intros v Hv. apply Hnone. right. exact Hv.
Qed.

(** X17. [showArticle] for a slug some article has: the article written
    is a stored row with that slug, with its own title and body; its
    author is the zero user, since only the tags are preloaded. *)
Theorem showArticle_existing_slug (w : World) (slug : string) :
  Params (ctx w) !! "slug" = Some slug ->
  (exists a, In a (articles (db w)) /\ Article_Slug a = slug) ->
  exists row shown,
    In row (articles (db w))
    /\ Article_Slug row = slug
    /\ showArticle w =
         (Returned tt,
          {| ctx := Context_JSON 200 (<["article" := VArticle shown]> ∅) (ctx w);
             db := db w |})
    /\ Article_Slug shown = slug
    /\ Article_Title shown = Article_Title row
    /\ Article_Body shown = Article_Body row
    /\ Article_User shown = User_zero.
Proof.
  intros Hparam (a & Ha & Hslug).
  set (p := fun a : Article => String.eqb (Article_Slug a) slug).
  assert (Hfa : In a (List.filter p (articles (db w)))).
  { apply List.filter_In. split; [exact Ha|]. unfold p. apply String.eqb_eq. exact Hslug. }
  destruct (List.filter p (articles (db w))) as [|b l] eqn:Hf; [destruct Hfa|].
  destruct (least_Article_ID_fold_Some l b) as (x & Hx & Hin).
  assert (Hxf : In x (List.filter p (articles (db w)))).
  { rewrite Hf. destruct Hin as [->|Hin]; [left; reflexivity | right; exact Hin]. }
  apply List.filter_In in Hxf as [Hxa Hpx]. apply String.eqb_eq in Hpx.
  exists x, (preload_Tags (db w) x).
  split; [exact Hxa|]. split; [exact Hpx|]. split.
  - unfold showArticle, mbind, Handler_bind, c_Param, read_ctx, First_Article_by_slug,
      read_db.
    cbn [ctx db]. rewrite Hparam. simpl default. fold p. rewrite Hf.
    simpl fold_left. rewrite Hx. reflexivity.
  - repeat split. exact Hpx.
Qed.

End ShowArticle.

(** An article asked for under a slug that is not stored. *)
Lemma showArticle_unknown_slug_witness :
  let w := {| ctx := new_Context ∅ (<["slug" := "missing"]> ∅) None;
              db := SampleBlog.store |} in
  (forall a, In a (articles (db w)) ->
             Article_Slug a <> default "" (Params (ctx w) !! "slug")) /\
  showArticle w =
    (Returned tt,
     {| ctx := Context_JSON 200 (<["article" := VArticle Article_zero]> ∅) (ctx w);
        db := db w |}).
Proof.
  intros w.
  assert (Hnone : forall a, In a (articles (db w)) ->
                            Article_Slug a <> default "" (Params (ctx w) !! "slug")).
  { intros a [<-|[]]. vm_compute. discriminate. }
  split; [exact Hnone|].
  exact (showArticle_unknown_slug w Hnone).
Defined.

(** The stored article, asked for by its slug. *)
Lemma showArticle_existing_slug_witness :
  let w := {| ctx := new_Context ∅ (<["slug" := "hello"]> ∅) None;
              db := SampleBlog.store |} in
  Params (ctx w) !! "slug" = Some "hello" /\
  (exists a, In a (articles (db w)) /\ Article_Slug a = "hello") /\
  exists row shown,
    In row (articles (db w))
    /\ Article_Slug row = "hello"
    /\ showArticle w =
         (Returned tt,
          {| ctx := Context_JSON 200 (<["article" := VArticle shown]> ∅) (ctx w);
             db := db w |})
    /\ Article_Slug shown = "hello"
    /\ Article_Title shown = Article_Title row
    /\ Article_Body shown = Article_Body row
    /\ Article_User shown = User_zero.
Proof.
  intros w.
  assert (Hparam : Params (ctx w) !! "slug" = Some "hello") by reflexivity.
  assert (Hex : exists a, In a (articles (db w)) /\ Article_Slug a = "hello").
  { exists SampleBlog.hello. split; [left; reflexivity | reflexivity]. }
  split; [exact Hparam|]. split; [exact Hex|].
  exact (showArticle_existing_slug w "hello" Hparam Hex).
Defined.

(** ** The request context's values *)

Section NoIdentity.
Context {codec : jwt.Codec} {bcrypt : Bcrypt}.
Variable env : Env.

(** X18. None of [authApi], [unfollowProfile] and [loginUser] ever
    stores a value on the request context: whatever the request and
    however they end, the context's keys afterwards are those before.
    In particular no authenticated user id is handed to later code. *)
Theorem handlers_attach_nothing (w : World) :
  Keys (ctx (snd (authApi env w))) = Keys (ctx w)
  /\ Keys (ctx (snd (unfollowProfile env w))) = Keys (ctx w)
  /\ Keys (ctx (snd (loginUser env w))) = Keys (ctx w).
Proof.
  split; [|split].
  - destruct (authApi_cases env w) as [Hp|[Hp|(tok & e & Hr & _)]];
      [rewrite Hp | rewrite Hp | rewrite Hr]; reflexivity.
  - destruct (authApi_cases env w) as [Hp|[Hp|(tok & e & Hr & _)]].
    + rewrite (unfollowProfile_panics env w w _ Hp). reflexivity.
    + rewrite (unfollowProfile_panics env w w _ Hp). reflexivity.
    + rewrite (unfollowProfile_returns env w _ tok Hr). reflexivity.
  - destruct (Request_Body (ctx w)) as [r|] eqn:Hbody.
    + pose proof (loginUser_run env w r Hbody) as Hrun. cbv zeta in Hrun. rewrite Hrun.
      destruct (CreateToken env _) as [token [err|]];
        destruct (CompareHashAndPassword _ _); reflexivity.
    + rewrite (loginUser_no_body env w Hbody). reflexivity.
Qed.

End NoIdentity.
